(** * Position lifecycle and order execution engine of the Binance trading bot

    A shallow embedding of the JavaScript sources
    (src/core/SignalProcessor.js, src/core/RiskManager.js,
    src/core/TradeExecutor.js, src/services/StateManager.js,
    src/utils/ErrorHandler.js, src/core/BinanceTradingBot.js and the legacy
    src/bot.js), followed by the properties of the specification that are
    stated about them.

    JavaScript numbers are IEEE 754 binary64 values; they are embedded as
    Rocq's primitive floats, whose operations are the same binary64
    operations with round-to-nearest-even.  Integer-valued configuration
    (periods, precisions, counters, timestamps) is embedded as [Z]. *)

From Stdlib Require Import ZArith List Bool Lia String.
From Stdlib Require Import PrimFloat FloatOps SpecFloat.
From stdpp Require Import base option list strings gmap.

Set Warnings "-inexact-float".
Local Open Scope Z_scope.

(* ===================================================================== *)
(** * Part I.  The embedding                                              *)
(* ===================================================================== *)

(** ** JavaScript values used by the engine *)

Module JS.

Abbreviation number := float.

(** An [Error] object: its [name] and its [message]. *)
Record Error := mkError { name : string; message : string }.

Definition TypeError (msg : string) : Error := mkError "TypeError" msg.
Definition RangeError (msg : string) : Error := mkError "RangeError" msg.

(** The number whose value is the integer [z] (exact below 2^53). *)
Definition of_Z (z : Z) : number :=
  SF2Prim (binary_normalize prec emax z 0 false).

(** Relational operators, as the source writes them. *)
Definition lt (a b : number) : bool := PrimFloat.ltb a b.
Definition le (a b : number) : bool := PrimFloat.leb a b.
Definition gt (a b : number) : bool := PrimFloat.ltb b a.
Definition ge (a b : number) : bool := PrimFloat.leb b a.
(** [a === b] and [a !== b] on numbers. *)
Definition strict_eq (a b : number) : bool := PrimFloat.eqb a b.
Definition strict_ne (a b : number) : bool := negb (PrimFloat.eqb a b).
(** ToBoolean on a number: false for +0, -0 and NaN. *)
Definition truthy (a : number) : bool :=
  negb (PrimFloat.eqb a 0%float || PrimFloat.is_nan a).

(** [Math.floor]: non-finite values and zeros are returned as they are. *)
Definition Math_floor (x : number) : number :=
  match Prim2SF x with
  | S754_finite s m e =>
      if 0 <=? e then x
      else
        let d := 2 ^ (- e) in
        let q := Z.pos m / d in
        if Z.pos m mod d =? 0 then x
        else if s then of_Z (- (q + 1)) else of_Z q
  | _ => x
  end.

(** The binary64 value nearest to the rational [n / d] ([0 <= n], [0 < d]),
    ties to even: the quotient is computed with at least 56 significant
    bits and a sticky bit, and rounded once. *)
Definition nearest_ratio (n d : Z) : number :=
  if n <=? 0 then 0%float
  else
    let k := Z.max 0 (57 + Z.log2 d - Z.log2 n) in
    let q := (n * 2 ^ k) / d in
    let sticky := if (n * 2 ^ k) mod d =? 0 then 0 else 1 in
    SF2Prim (binary_normalize prec emax (2 * q + sticky) (- (k + 1)) false).

(** The strings produced by [Number.prototype.toFixed], by content:
    [Decimal neg n f] is the decimal numeral of [n / 10^f] written with [f]
    fraction digits and a leading minus sign when [neg]; [ToString x] is
    [String(x)], which toFixed returns for NaN, the infinities and
    magnitudes from 1e21 on. *)
Inductive NumberString :=
| Decimal (neg : bool) (n : Z) (fractionDigits : Z)
| ToString (x : number).

(** The integer [n] for which [n / 10^f - x] is closest to zero, the larger
    one on a tie, for the positive real [m * 2^e]. *)
Definition toFixed_digits (m : positive) (e : Z) (f : Z) : Z :=
  if 0 <=? e then Z.pos m * 2 ^ e * 10 ^ f
  else (2 * Z.pos m * 10 ^ f + 2 ^ (- e)) / 2 ^ (- e + 1).

(** [x.toFixed(fractionDigits)]; a RangeError outside 0..100. *)
Definition toFixed (x : number) (fractionDigits : Z) : Error + NumberString :=
  if (fractionDigits <? 0) || (100 <? fractionDigits)
  then inl (RangeError "toFixed() digits argument must be between 0 and 100")
  else
    match Prim2SF x with
    | S754_finite s m e =>
        if PrimFloat.leb 1e21%float (PrimFloat.abs x) then inr (ToString x)
        else inr (Decimal s (toFixed_digits m e fractionDigits) fractionDigits)
    | S754_zero _ => inr (Decimal false 0 fractionDigits)
    | _ => inr (ToString x)
    end.

(** The [toFixed(digits)] calls of one log message, in order: the first
    error, if any. *)
Fixpoint format_all (xs : list number) (digits : Z) : Error + unit :=
  match xs with
  | [] => inr tt
  | x :: xs' =>
      match toFixed x digits with
      | inl e => inl e
      | inr _ => format_all xs' digits
      end
  end.

(** [parseFloat] on the strings above: the nearest number to the numeral;
    [String(x)] reads back as [x]. *)
Definition parseFloat (s : NumberString) : number :=
  match s with
  | Decimal neg n f =>
      let v := nearest_ratio n (10 ^ f) in
      if neg then PrimFloat.opp v else v
  | ToString x => x
  end.

(** [Array.prototype.slice(start)] with one argument. *)
Definition slice {A} (l : list A) (start : Z) : list A :=
  let len := Z.of_nat (length l) in
  let k := if start <? 0 then Z.max (len + start) 0 else Z.min start len in
  drop (Z.to_nat k) l.

(** [Array.prototype.shift()], keeping the array only. *)
Definition shift {A} (l : list A) : list A := tail l.

(** [Array.prototype.push(x)], keeping the array only. *)
Definition push {A} (l : list A) (x : A) : list A := l ++ [x].

(** [arr.reduce((sum, val) => sum + val, 0)]. *)
Definition sum (l : list number) : number :=
  fold_left PrimFloat.add l 0%float.

End JS.

(** ** Configuration and the orchestrator's data (src/config/ConfigManager.js,
       src/core/BinanceTradingBot.js constructor) *)

(** [config.strategy]; [initialCapital] is read by the risk manager but is
    not set by the configuration loader, hence optional. *)
Record Strategy := mkStrategy {
  symbol : string;
  shortMASize : Z;
  longMASize : Z;
  investmentAmount : JS.number;
  stopLossPercentage : JS.number;
  takeProfitPercentage : JS.number;
  trailingStopPercentage : JS.number;
  pricePrecision : Z;
  quantityPrecision : Z;
  initialCapital : option JS.number
}.

(** The configuration object, with the host's local time zone adjustment
    (ECMAScript's LocalTZA, in milliseconds, at a UTC time value), which the
    [Date] getters of the state manager depend on. *)
Record Config := mkConfig {
  strategy : Strategy;
  telegram_enabled : bool;   (* config.notifications.telegram.enabled *)
  localTZA : Z -> Z
}.

(** [this.position] of the orchestrator. *)
Record Position := mkPosition {
  holding : bool;
  amount : JS.number;
  asset : string;
  quoteAsset : string
}.

(** One archived day in [dailyStats.dailyProfits]. *)
Record DailyProfit := mkDailyProfit {
  date : string;
  dp_profit : JS.number
}.

Record DailyStats := mkDailyStats {
  trades : Z;
  profit : JS.number;
  startTime : Z;
  dailyProfits : list DailyProfit
}.

(** ** Signal processor (src/core/SignalProcessor.js) *)

Module SignalProcessor.
Import JS.
Local Open Scope float_scope.

Inductive Signal := BUY | SELL.

(** The object's fields; logger calls are left out. *)
Record t := mk {
  shortMASize : Z;
  longMASize : Z;
  prices : list number;
  shortMA : list number;
  longMA : list number
}.

Definition new (shortMASize longMASize : Z) : t :=
  mk shortMASize longMASize [] [] [].

(** [calculateEMA(data, period)].  [data[0]] of an empty array is
    [undefined]; it is then always overwritten by the average (an empty
    [data] passes the length test only for [period <= 0]), so [nan] stands
    for it. *)
Definition calculateEMA (this : t) (data : list number) (period : Z) : number :=
  if (Z.of_nat (length data) <? period)%Z then 0
  else
    let k := 2 / of_Z (period + 1) in
    let ema := nth 0 data nan in
    let ema :=
      if (period <=? Z.of_nat (length (prices this)))%Z
      then sum (slice data (- period)) / of_Z period
      else ema in
    fold_left (fun ema x => x * k + ema * (1 - k)) (tail data) ema.

(** [calculateSMA(data, period)]. *)
Definition calculateSMA (data : list number) (period : Z) : number :=
  if (Z.of_nat (length data) <? period)%Z then 0
  else sum (slice data (- period)) / of_Z period.

(** [arr.push(x)] followed by the size cap
    [if (arr.length > size * 2) arr.shift()]. *)
Definition push_capped (arr : list number) (x : number) (size : Z) : list number :=
  let arr := push arr x in
  if (size * 2 <? Z.of_nat (length arr))%Z then shift arr else arr.

Definition calculateMovingAverages (this : t) : t :=
  if (Z.of_nat (length (prices this)) <? longMASize this)%Z
  then mk (shortMASize this) (longMASize this) (prices this) [] []
  else
    let shortMA' :=
      push_capped (shortMA this)
        (calculateEMA this (prices this) (shortMASize this)) (shortMASize this) in
    let longMA' :=
      push_capped (longMA this)
        (calculateEMA this (prices this) (longMASize this)) (longMASize this) in
    mk (shortMASize this) (longMASize this) (prices this) shortMA' longMA'.

(** [checkSignal()]: [None] is the source's [null]. *)
Definition checkSignal (this : t) : option Signal :=
  let ns := length (shortMA this) in
  let nl := length (longMA this) in
  if (ns <? 2)%nat || (nl <? 2)%nat then None
  else
    match shortMA this !! (ns - 1)%nat, shortMA this !! (ns - 2)%nat,
          longMA this !! (nl - 1)%nat, longMA this !! (nl - 2)%nat with
    | Some currentShortMA, Some previousShortMA,
      Some currentLongMA, Some previousLongMA =>
        if le previousShortMA previousLongMA && gt currentShortMA currentLongMA
        then Some BUY
        else if ge previousShortMA previousLongMA && lt currentShortMA currentLongMA
        then Some SELL
        else None
    | _, _, _, _ => None
    end.

(** [initializeData(historicalPrices)]. *)
Definition initializeData (this : t) (historicalPrices : list number) : t :=
  match historicalPrices with
  | [] => this
  | _ =>
      let requiredLength := (Z.max (shortMASize this) (longMASize this) * 2)%Z in
      let prices' :=
        if (requiredLength <? Z.of_nat (length historicalPrices))%Z
        then slice historicalPrices (- requiredLength)
        else historicalPrices in
      calculateMovingAverages
        (mk (shortMASize this) (longMASize this) prices' (shortMA this) (longMA this))
  end.

(** [processPrice(newPrice)]: the signal returned and the object after. *)
Definition processPrice (this : t) (newPrice : number) : option Signal * t :=
  let prices1 := push (prices this) newPrice in
  let minPricesRequired := longMASize this in
  let prices2 :=
    if (minPricesRequired * 2 <? Z.of_nat (length prices1))%Z
    then shift prices1 else prices1 in
  let this' :=
    calculateMovingAverages
      (mk (shortMASize this) (longMASize this) prices2 (shortMA this) (longMA this)) in
  (checkSignal this', this').

(** Feeding a sequence of prices, one [processPrice] call each; the signals
    are returned in the order of the calls. *)
Fixpoint feed (this : t) (ps : list number) : list (option Signal) * t :=
  match ps with
  | [] => ([], this)
  | p :: ps' =>
      let '(s, this1) := processPrice this p in
      let '(ss, this2) := feed this1 ps' in
      (s :: ss, this2)
  end.

End SignalProcessor.

(** ** Risk manager (src/core/RiskManager.js) *)

Module RiskManager.
Import JS.
Local Open Scope float_scope.

Inductive Reason := STOP_LOSS | TAKE_PROFIT | TRAILING_STOP.

Record ExitAction := mkExit { reason : Reason; price : number }.

(** The fields read from the environment by the constructor. *)
Record t := mk {
  maxDailyLossPercentage : number;
  maxDailyTrades : Z
}.

Record RiskCheck := mkCheck { canTrade : bool; check_reason : string }.

(** [checkDailyRiskLimits(dailyStats, investmentAmount)]; its logger calls
    are left out. *)
Definition checkDailyRiskLimits (this : t) (cfg : Config)
    (dailyStats : DailyStats) (investmentAmount : number) : RiskCheck :=
  let baseCapitalForDailyLoss :=
    match initialCapital (strategy cfg) with
    | Some c => if truthy c then c else 1000
    | None => 1000
    end in
  if lt (profit dailyStats) 0 &&
     ge (abs (profit dailyStats)) (baseCapitalForDailyLoss * maxDailyLossPercentage this)
  then mkCheck false "Limite de perda diária atingido."
  else if (maxDailyTrades this <=? trades dailyStats)%Z
  then mkCheck false "Limite de trades diários atingido."
  else mkCheck true "Limites de risco OK.".

(** [checkExitConditions(position, entryPrice, highestPrice, currentPrice,
    stopLossPercentage, takeProfitPercentage, trailingStopPercentage)];
    [inr None] is the source's [null].  Each exit branch first logs the
    prices with [toFixed(config.strategy.pricePrecision)], which throws a
    RangeError for a precision outside 0..100. *)
Definition checkExitConditions (cfg : Config) (position : Position)
    (entryPrice highestPrice currentPrice : number)
    (stopLossPercentage takeProfitPercentage trailingStopPercentage : number)
    : Error + option ExitAction :=
  let logged (xs : list number) (a : ExitAction) : Error + option ExitAction :=
    match format_all xs (pricePrecision (strategy cfg)) with
    | inl e => inl e
    | inr _ => inr (Some a)
    end in
  if negb (holding position) then inr None
  else
    let currentProfitLossPercentage := (currentPrice - entryPrice) / entryPrice in
    if le currentProfitLossPercentage (- stopLossPercentage)
    then logged [currentPrice; entryPrice] (mkExit STOP_LOSS currentPrice)
    else if ge currentProfitLossPercentage takeProfitPercentage
    then logged [currentPrice; entryPrice] (mkExit TAKE_PROFIT currentPrice)
    else
      let trailingStopPrice := highestPrice * (1 - trailingStopPercentage) in
      if le currentPrice trailingStopPrice && gt highestPrice entryPrice
      then logged [currentPrice; highestPrice; trailingStopPrice]
             (mkExit TRAILING_STOP currentPrice)
      else inr None.

End RiskManager.

(** ** Exchange data (Binance REST payloads, numeric strings already read by
       [parseFloat]) *)

(** One entry of [symbolInfo.filters].  The numeric fields hold
    [parseFloat] of the exchange's strings, [nan] for a field the filter
    does not carry ([parseFloat(undefined)]). *)
Record Filter := mkFilter {
  filterType : string;
  tickSize : JS.number;
  stepSize : JS.number;
  minNotional : JS.number
}.

Record SymbolInfo := mkSymbolInfo {
  si_symbol : string;
  filters : list Filter
}.

Record Balance := mkBalance { free : JS.number; locked : JS.number }.

Inductive Side := SIDE_BUY | SIDE_SELL.

(** The arguments of [binanceAPIService.createOrder(symbol, side, type,
    quantity, null)]. *)
Record OrderRequest := mkOrderRequest {
  or_symbol : string;
  or_side : Side;
  or_type : string;
  or_quantity : JS.number
}.

(** The exchange's answer to an order; [executedQty] and
    [cummulativeQuoteQty] hold [parseFloat] of the answer's strings. *)
Record Order := mkOrder {
  orderId : Z;
  status : string;
  executedQty : JS.number;
  cummulativeQuoteQty : JS.number
}.

(** A row of the trade table (src/db/models/Trade.js), as [saveTrade]
    receives it. *)
Record Trade := mkTrade {
  t_symbol : string;
  t_orderId : Z;
  t_side : Side;
  t_type : string;
  t_quantity : JS.number;
  t_price : JS.number;
  t_timestamp : Z;
  t_profit : JS.number;
  t_reason : option RiskManager.Reason
}.

(** The row of the bot_state table (src/db/models/BotState.js), as
    [saveState] writes it and [loadState] reads it; DECIMAL columns are
    held as the numbers [parseFloat] yields. *)
Record BotStateRow := mkBotStateRow {
  st_holding : bool;
  st_amount : JS.number;
  st_asset : string;
  st_quoteAsset : string;
  st_entryPrice : JS.number;
  st_highestPrice : JS.number;
  st_lastPrice : JS.number;
  st_dailyStats : DailyStats;
  st_accountBalances : gmap string Balance;
  st_updatedAt : Z
}.

(** What the executor returns on a fill: [{ executedQty, avgPrice }] for a
    buy, with [profitLoss] for a sell. *)
Record OrderResult := mkOrderResult {
  r_executedQty : JS.number;
  r_avgPrice : JS.number;
  r_profitLoss : option JS.number
}.

(** ** The object graph of one bot process *)

Inductive Level :=
| LDebug | LInfo | LWarn | LError | LTrade | LSignal.

(** The mutable fields of the orchestrator and of the components it owns.
    There is one bot object per process: [stateManager.botInstance], once
    set, refers to it, so the field only records whether it is set.  [log]
    is what the logger received (level and fixed text; interpolated numbers
    are left out). *)
Record State := mkState {
  isInitialized : bool;
  position : Position;
  entryPrice : JS.number;
  highestPrice : JS.number;
  lastPrice : JS.number;
  dailyStats : DailyStats;
  accountBalances : gmap string Balance;
  symbolInfo : SymbolInfo;
  signalProcessor : SignalProcessor.t;
  orderInProgress : bool;                (* tradeExecutor.orderInProgress *)
  te_symbolInfo : option SymbolInfo;     (* tradeExecutor.symbolInfo *)
  botInstance : bool;                    (* stateManager.botInstance !== null *)
  telegramService_enabled : bool;        (* telegramService.enabled && bot *)
  log : list (Level * string)
}.

Definition set_position (v : Position) (s : State) : State :=
  mkState (isInitialized s) v (entryPrice s) (highestPrice s) (lastPrice s)
    (dailyStats s) (accountBalances s) (symbolInfo s) (signalProcessor s)
    (orderInProgress s) (te_symbolInfo s) (botInstance s)
    (telegramService_enabled s) (log s).

Definition set_entryPrice (v : JS.number) (s : State) : State :=
  mkState (isInitialized s) (position s) v (highestPrice s) (lastPrice s)
    (dailyStats s) (accountBalances s) (symbolInfo s) (signalProcessor s)
    (orderInProgress s) (te_symbolInfo s) (botInstance s)
    (telegramService_enabled s) (log s).

Definition set_highestPrice (v : JS.number) (s : State) : State :=
  mkState (isInitialized s) (position s) (entryPrice s) v (lastPrice s)
    (dailyStats s) (accountBalances s) (symbolInfo s) (signalProcessor s)
    (orderInProgress s) (te_symbolInfo s) (botInstance s)
    (telegramService_enabled s) (log s).

Definition set_lastPrice (v : JS.number) (s : State) : State :=
  mkState (isInitialized s) (position s) (entryPrice s) (highestPrice s) v
    (dailyStats s) (accountBalances s) (symbolInfo s) (signalProcessor s)
    (orderInProgress s) (te_symbolInfo s) (botInstance s)
    (telegramService_enabled s) (log s).

Definition set_dailyStats (v : DailyStats) (s : State) : State :=
  mkState (isInitialized s) (position s) (entryPrice s) (highestPrice s)
    (lastPrice s) v (accountBalances s) (symbolInfo s) (signalProcessor s)
    (orderInProgress s) (te_symbolInfo s) (botInstance s)
    (telegramService_enabled s) (log s).

Definition set_accountBalances (v : gmap string Balance) (s : State) : State :=
  mkState (isInitialized s) (position s) (entryPrice s) (highestPrice s)
    (lastPrice s) (dailyStats s) v (symbolInfo s) (signalProcessor s)
    (orderInProgress s) (te_symbolInfo s) (botInstance s)
    (telegramService_enabled s) (log s).

Definition set_signalProcessor (v : SignalProcessor.t) (s : State) : State :=
  mkState (isInitialized s) (position s) (entryPrice s) (highestPrice s)
    (lastPrice s) (dailyStats s) (accountBalances s) (symbolInfo s) v
    (orderInProgress s) (te_symbolInfo s) (botInstance s)
    (telegramService_enabled s) (log s).

Definition set_orderInProgress (v : bool) (s : State) : State :=
  mkState (isInitialized s) (position s) (entryPrice s) (highestPrice s)
    (lastPrice s) (dailyStats s) (accountBalances s) (symbolInfo s)
    (signalProcessor s) v (te_symbolInfo s) (botInstance s)
    (telegramService_enabled s) (log s).

Definition set_te_symbolInfo (v : option SymbolInfo) (s : State) : State :=
  mkState (isInitialized s) (position s) (entryPrice s) (highestPrice s)
    (lastPrice s) (dailyStats s) (accountBalances s) (symbolInfo s)
    (signalProcessor s) (orderInProgress s) v (botInstance s)
    (telegramService_enabled s) (log s).

Definition set_botInstance (v : bool) (s : State) : State :=
  mkState (isInitialized s) (position s) (entryPrice s) (highestPrice s)
    (lastPrice s) (dailyStats s) (accountBalances s) (symbolInfo s)
    (signalProcessor s) (orderInProgress s) (te_symbolInfo s) v
    (telegramService_enabled s) (log s).

Definition add_log (l : Level) (msg : string) (s : State) : State :=
  mkState (isInitialized s) (position s) (entryPrice s) (highestPrice s)
    (lastPrice s) (dailyStats s) (accountBalances s) (symbolInfo s)
    (signalProcessor s) (orderInProgress s) (te_symbolInfo s) (botInstance s)
    (telegramService_enabled s) (log s ++ [(l, msg)]).

(** ** Asynchronous functions *)

Module Async.
Import JS.

(** How an awaited promise settles. *)
Inductive Settled (A : Type) :=
| Fulfilled (a : A)
| Rejected (e : Error).
Arguments Fulfilled {A} a.
Arguments Rejected {A} e.

(** The calls into the collaborators that the engine awaits (exchange
    client, Sequelize models, Telegram client) and the clock. *)
Inductive Call : Type -> Type :=
| createOrder (req : OrderRequest) : Call (Settled Order)
| TradeModel_create (t : Trade) : Call (Settled unit)
| BotStateModel_findOne : Call (Settled (option BotStateRow))
| BotStateModel_upsert (row : BotStateRow) : Call (Settled unit)
| syncDatabase : Call (Settled unit)
| sendMessage (text : string) : Call (Settled unit)
| Date_now : Call Z.

(** How a function body completes: normally with a value, by a thrown
    error, or by [process.exit(code)], which no handler intercepts. *)
Inductive Completion (R : Type) :=
| Normal (r : R)
| Throw (e : Error)
| Exit (code : Z).
Arguments Normal {R} r.
Arguments Throw {R} e.
Arguments Exit {R} code.

(** A started call of an async function: either completed, leaving the
    object graph in state [s], or suspended at an awaited call with the
    object graph in state [s]; it is resumed with the call's answer and the
    object graph as it is at that moment. *)
Inductive Task (R : Type) : Type :=
| Done (c : Completion R) (s : State)
| Await {X : Type} (call : Call X) (s : State) (k : X -> State -> Task R).
Arguments Done {R} c s.
Arguments Await {R X} call s k.

Definition Prog (R : Type) : Type := State -> Task R.

Fixpoint bindT {A B} (t : Task A) (f : A -> Prog B) : Task B :=
  match t with
  | Done (Normal a) s => f a s
  | Done (Throw e) s => Done (Throw e) s
  | Done (Exit c) s => Done (Exit c) s
  | Await call s k => Await call s (fun x s' => bindT (k x s') f)
  end.

Definition ret {A} (a : A) : Prog A := fun s => Done (Normal a) s.
Definition bind {A B} (m : Prog A) (f : A -> Prog B) : Prog B :=
  fun s => bindT (m s) f.
Definition throw {A} (e : Error) : Prog A := fun s => Done (Throw e) s.
(** [process.exit(code)]. *)
Definition process_exit {A} (code : Z) : Prog A := fun s => Done (Exit code) s.
Definition get : Prog State := fun s => Done (Normal s) s.
Definition modify (f : State -> State) : Prog unit := fun s => Done (Normal tt) (f s).
(** [await call]: the raw answer. *)
Definition perform {X} (call : Call X) : Prog X :=
  fun s => Await call s (fun x s' => Done (Normal x) s').

Declare Scope prog_scope.
Delimit Scope prog_scope with prog.
Notation "x <- m ;; k" := (bind m (fun x => k))
  (at level 100, m at next level, right associativity) : prog_scope.
Notation "m ;; k" := (bind m (fun _ => k))
  (at level 100, right associativity) : prog_scope.
Local Open Scope prog_scope.

(** [await promise]: the value, or the rejection thrown. *)
Definition await {A} (call : Call (Settled A)) : Prog A :=
  r <- perform call ;;
  match r with
  | Fulfilled a => ret a
  | Rejected e => throw e
  end.

(** A value of [Error + A] computed by a synchronous helper. *)
Definition lift {A} (r : Error + A) : Prog A :=
  match r with
  | inl e => throw e
  | inr a => ret a
  end.

Fixpoint catchT {A} (t : Task A) (h : Error -> Prog A) : Task A :=
  match t with
  | Done (Throw e) s => h e s
  | Done c s => Done c s
  | Await call s k => Await call s (fun x s' => catchT (k x s') h)
  end.

(** [try { body } catch (error) { h error }]. *)
Definition try_catch {A} (body : Prog A) (h : Error -> Prog A) : Prog A :=
  fun s => catchT (body s) h.

Fixpoint finallyT {A} (t : Task A) (fin : Prog unit) : Task A :=
  match t with
  | Done (Exit c) s => Done (Exit c) s
  | Done c s => bindT (fin s) (fun _ s' => Done c s')
  | Await call s k => Await call s (fun x s' => finallyT (k x s') fin)
  end.

(** [try { body } finally { fin }]: [fin] runs after a normal or an abrupt
    completion of [body], which is then the completion of the whole. *)
Definition try_finally {A} (body : Prog A) (fin : Prog unit) : Prog A :=
  fun s => finallyT (body s) fin.

Definition logger (l : Level) (msg : string) : Prog unit := modify (add_log l msg).

(** A [toFixed] call inside a log message: only its RangeError matters. *)
Definition formatted (x : number) (digits : Z) : Prog unit :=
  _ <- lift (toFixed x digits) ;; ret tt.

(** Every way the task can go on, whatever the awaited calls answer and
    whatever the object graph has become at each resumption, ends in a
    completion and state satisfying [P]. *)
Fixpoint always {R} (P : Completion R -> State -> Prop) (t : Task R) : Prop :=
  match t with
  | Done c s => P c s
  | Await _ _ k => forall x s', always P (k x s')
  end.

(** The task does not await any call: in particular it sends nothing to the
    exchange. *)
Definition immediate {R} (t : Task R) : Prop :=
  match t with
  | Done _ _ => True
  | Await _ _ _ => False
  end.

End Async.

(** ** [Date] (time values in milliseconds since the epoch) *)

Module Date.

Definition msPerDay : Z := 86400000.

(** A time value outside this range makes an Invalid Date. *)
Definition valid (t : Z) : bool := Z.abs t <=? 8640000000000000.

(** Year, month (1..12) and day of the month of a day number counted from
    1970-01-01, in the proleptic Gregorian calendar. *)
Definition civil (days : Z) : Z * Z * Z :=
  let z := days + 719468 in
  let era := z / 146097 in
  let doe := z - era * 146097 in
  let yoe := (doe - doe / 1460 + doe / 36524 - doe / 146096) / 365 in
  let doy := doe - (365 * yoe + yoe / 4 - yoe / 100) in
  let mp := (5 * doy + 2) / 153 in
  let d := doy - (153 * mp + 2) / 5 + 1 in
  let m := if mp <? 10 then mp + 3 else mp - 9 in
  let y := yoe + era * 400 + (if m <=? 2 then 1 else 0) in
  (y, m, d).

(** [(getFullYear(), getMonth(), getDate())] in local time; [None] for an
    Invalid Date, whose getters return NaN. *)
Definition local_date (cfg : Config) (t : Z) : option (Z * Z * Z) :=
  if valid t then
    let '(y, m, d) := civil ((t + localTZA cfg t) / msPerDay) in
    Some (y, m - 1, d)
  else None.

(** [a.getDate() !== b.getDate() || a.getMonth() !== b.getMonth() ||
    a.getFullYear() !== b.getFullYear()]; NaN differs from everything. *)
Definition date_differs (cfg : Config) (a b : Z) : bool :=
  match local_date cfg a, local_date cfg b with
  | Some (ya, ma, da), Some (yb, mb, db) =>
      negb (da =? db) || negb (ma =? mb) || negb (ya =? yb)
  | _, _ => true
  end.

(** The last [n] decimal digits of [z], most significant first. *)
Fixpoint digits (n : nat) (z : Z) : string :=
  match n with
  | O => EmptyString
  | S n' =>
      String.append (digits n' (z / 10))
        (String (Ascii.ascii_of_nat (48 + Z.to_nat (z mod 10))) EmptyString)
  end.

(** [toISOString().split('T')[0]]: the UTC date, with the expanded year
    form outside 0..9999; a RangeError for an Invalid Date. *)
Definition toISOString_date (t : Z) : JS.Error + string :=
  if valid t then
    let '(y, m, d) := civil (t / msPerDay) in
    let year :=
      if (0 <=? y) && (y <=? 9999) then digits 4 y
      else String.append (if y <? 0 then "-" else "+") (digits 6 (Z.abs y)) in
    inr (String.append year
           (String.append "-" (String.append (digits 2 m)
              (String.append "-" (digits 2 d)))))
  else inl (JS.RangeError "Invalid time value").

End Date.

(** [str.replace(pat, '')] with a string pattern: the first occurrence is
    removed. *)
Fixpoint remove_first (pat s : string) : string :=
  if String.prefix pat s
  then String.substring (String.length pat) (String.length s - String.length pat) s
  else
    match s with
    | EmptyString => EmptyString
    | String c s' => String c (remove_first pat s')
    end.

(** ** Telegram service and error handler (src/services/TelegramService.js,
       src/utils/ErrorHandler.js) *)

Module TelegramService.
Import JS Async.
Local Open Scope prog_scope.

(** [sendTelegramNotification(message)]. *)
Definition sendTelegramNotification (message : string) : Prog bool :=
  s <- get ;;
  if negb (telegramService_enabled s)
  then logger LDebug "TelegramService não habilitado ou não inicializado. Notificação não enviada." ;;
       ret false
  else
    try_catch
      (await (sendMessage message) ;;
       logger LDebug "Notificação Telegram enviada com sucesso." ;;
       ret true)
      (fun error =>
         logger LError (String.append "Falha ao enviar notificação Telegram: " (JS.message error)) ;;
         ret false).

End TelegramService.

Module ErrorHandler.
Import JS Async.
Local Open Scope prog_scope.

(** [handleCriticalError(error, context, shouldExit = true)].  The Telegram
    service is injected by the orchestrator's constructor, so
    [telegramServiceInstance] is set. *)
Definition handleCriticalError (cfg : Config) (error : Error) (context : string)
    (shouldExit : bool) : Prog unit :=
  logger LError (String.append context (String.append ": " (message error))) ;;
  (if telegram_enabled cfg then
     try_catch
       (_ <- TelegramService.sendTelegramNotification
               (String.append "Alerta de Erro Crítico no Bot: "
                  (String.append context (String.append ": " (message error)))) ;;
        ret tt)
       (fun telegramError =>
          logger LError "Falha ao enviar notificação de erro crítico para o Telegram")
   else ret tt) ;;
  if shouldExit then
    logger LError (String.append "Encerrando o processo devido ao erro crítico em: " context) ;;
    process_exit 1
  else ret tt.

(** The default value of the parameter [shouldExit]. *)
Definition shouldExit_default : bool := true.

End ErrorHandler.

(** ** State manager (src/services/StateManager.js) *)

Module StateManager.
Import JS Async.
Local Open Scope prog_scope.

(** What a property of the StateManager object refers to. *)
Inductive Ref :=
| ref_config
| ref_logger
| ref_string (s : string)
| ref_model (table : string)
| ref_bot
| ref_null.

(** The own properties of the object: exactly the ones its constructor
    assigns ([botInstance] is reassigned by [loadState] and [saveState]).
    The class has methods only besides them. *)
Definition properties (s : State) : list (string * Ref) :=
  [ ("config", ref_config);
    ("logger", ref_logger);
    ("botId", ref_string "main_bot_instance");
    ("BotStateModel", ref_model "bot_state");
    ("TradeModel", ref_model "trades");
    ("botInstance", if botInstance s then ref_bot else ref_null) ].

(** [stateManager[name]] for a name that is not a method: [None] is
    [undefined]. *)
Definition get_property (s : State) (name : string) : option Ref :=
  snd <$> List.find (fun p => String.eqb (fst p) name) (properties s).

(** [saveState(bot)]. *)
Definition saveState : Prog unit :=
  modify (set_botInstance true) ;;
  try_catch
    (s <- get ;;
     updatedAt <- perform Date_now ;;
     let stateData :=
       mkBotStateRow (holding (position s)) (amount (position s))
         (asset (position s)) (quoteAsset (position s))
         (entryPrice s) (highestPrice s) (lastPrice s)
         (dailyStats s) (accountBalances s) updatedAt in
     await (BotStateModel_upsert stateData) ;;
     logger LDebug "Estado do bot salvo no DB.")
    (fun error =>
       logger LError (String.append "Falha ao salvar estado do bot no DB: " (message error))).

(** [saveTrade(tradeDetails)]. *)
Definition saveTrade (tradeDetails : Trade) : Prog unit :=
  try_catch
    (await (TradeModel_create tradeDetails) ;;
     logger LTrade "Trade registrado no DB.")
    (fun error =>
       if String.eqb (name error) "SequelizeUniqueConstraintError"
       then logger LWarn "Tentativa de registrar trade duplicado."
       else logger LError (String.append "Falha ao registrar trade no DB: " (message error))).

(** [updateDailyStats({ profit, trades })]: declared async but without an
    await, so it runs to its end when called. *)
Definition updateDailyStats (update_profit : number) (update_trades : Z) : Prog unit :=
  s <- get ;;
  if negb (botInstance s)
  then logger LError "botInstance não definido no StateManager. Não é possível atualizar as estatísticas diárias."
  else
    (if truthy update_profit then
       modify (fun s =>
         let d := dailyStats s in
         set_dailyStats
           (mkDailyStats (trades d) (PrimFloat.add (profit d) update_profit)
              (startTime d) (dailyProfits d)) s)
     else ret tt) ;;
    (if negb (update_trades =? 0) then
       modify (fun s =>
         let d := dailyStats s in
         set_dailyStats
           (mkDailyStats (trades d + update_trades) (profit d)
              (startTime d) (dailyProfits d)) s)
     else ret tt).

(** [connectAndSyncDb()]. *)
Definition connectAndSyncDb (cfg : Config) : Prog unit :=
  try_catch
    (await syncDatabase ;;
     logger LInfo "Conexão e sincronização do DB estabelecidas pelo StateManager.")
    (fun error =>
       ErrorHandler.handleCriticalError cfg error
         "Falha ao conectar ou sincronizar o banco de dados."
         ErrorHandler.shouldExit_default).

(** The assignments of [loadState] that copy the row into the bot. *)
Definition apply_row (cfg : Config) (state : BotStateRow) (s : State) : State :=
  let asset' :=
    if String.eqb (st_asset state) ""
    then remove_first "USDT" (symbol (strategy cfg)) else st_asset state in
  let quoteAsset' :=
    if String.eqb (st_quoteAsset state) "" then "USDT" else st_quoteAsset state in
  set_accountBalances (st_accountBalances state)
    (set_dailyStats (st_dailyStats state)
       (set_lastPrice (st_lastPrice state)
          (set_highestPrice (st_highestPrice state)
             (set_entryPrice (st_entryPrice state)
                (set_position
                   (mkPosition (st_holding state) (st_amount state) asset' quoteAsset')
                   s))))).

(** The day rollover of [loadState], from the test of the dates on. *)
Definition rollover (cfg : Config) (now : Z) : Prog unit :=
  s <- get ;;
  let lastStartTime := startTime (dailyStats s) in
  if Date.date_differs cfg now lastStartTime then
    logger LInfo "Novo dia detectado. Resetando estatísticas diárias." ;;
    (if strict_ne (profit (dailyStats s)) 0 then
       label <- lift (Date.toISOString_date lastStartTime) ;;
       modify (fun s =>
         let d := dailyStats s in
         set_dailyStats
           (mkDailyStats (trades d) (profit d) (startTime d)
              (push (dailyProfits d) (mkDailyProfit label (profit d)))) s)
     else ret tt) ;;
    modify (fun s =>
      set_dailyStats (mkDailyStats 0 0 now (dailyProfits (dailyStats s))) s) ;;
    saveState
  else ret tt.

(** [loadState(bot)]. *)
Definition loadState (cfg : Config) : Prog unit :=
  modify (set_botInstance true) ;;
  connectAndSyncDb cfg ;;
  try_catch
    (state <- await BotStateModel_findOne ;;
     match state with
     | Some state =>
         modify (apply_row cfg state) ;;
         now <- perform Date_now ;;
         rollover cfg now ;;
         logger LInfo "Estado do bot carregado com sucesso do DB."
     | None =>
         logger LInfo "Nenhum estado anterior encontrado no DB. Iniciando com estado padrão." ;;
         now <- perform Date_now ;;
         modify (fun s =>
           let d := dailyStats s in
           set_dailyStats (mkDailyStats (trades d) (profit d) now (dailyProfits d)) s) ;;
         saveState
     end)
    (fun error =>
       ErrorHandler.handleCriticalError cfg error
         "Falha ao carregar estado do bot do banco de dados."
         ErrorHandler.shouldExit_default).

End StateManager.

(** ** Trade executor (src/core/TradeExecutor.js) *)

Module TradeExecutor.
Import JS Async.
Local Open Scope prog_scope.
Local Open Scope float_scope.

(** [symbolInfo.filters.find(f => f.filterType === type)]. *)
Definition find_filter (type : string) (si : SymbolInfo) : option Filter :=
  List.find (fun f => String.eqb (filterType f) type) (filters si).

(** [setSymbolInfo(symbolInfo)]. *)
Definition setSymbolInfo (symbolInfo : SymbolInfo) : Prog unit :=
  modify (set_te_symbolInfo (Some symbolInfo)) ;;
  logger LDebug "TradeExecutor recebeu informações do símbolo.".

(** [parseFloat((Math.floor(value / size) * size).toFixed(precision))]. *)
Definition quantize (value size : number) (precision : Z) : Error + number :=
  match toFixed (Math_floor (value / size) * size) precision with
  | inl e => inl e
  | inr str => inr (parseFloat str)
  end.

(** [applyExchangeFilter(type, value)]. *)
Definition applyExchangeFilter (cfg : Config) (type : string) (value : number)
    : Prog number :=
  s <- get ;;
  match te_symbolInfo s with
  | None =>
      logger LWarn "symbolInfo não carregado no TradeExecutor. Validação de ordem pode ser imprecisa." ;;
      ret value
  | Some si =>
      match find_filter type si with
      | None =>
          logger LWarn "Filtro não encontrado para o símbolo." ;;
          ret value
      | Some filter =>
          if String.eqb type "PRICE_FILTER" then
            lift (quantize value (tickSize filter) (pricePrecision (strategy cfg)))
          else if String.eqb type "LOT_SIZE" then
            lift (quantize value (stepSize filter) (quantityPrecision (strategy cfg)))
          else ret value
      end
  end.

(** [this.symbolInfo.filters.find(f => f.filterType === 'MIN_NOTIONAL')];
    reading [filters] of a null [symbolInfo] throws. *)
Definition minNotionalFilter : Prog (option Filter) :=
  s <- get ;;
  match te_symbolInfo s with
  | None => throw (TypeError "Cannot read properties of null (reading 'filters')")
  | Some si => ret (find_filter "MIN_NOTIONAL" si)
  end.

(** [minNotionalFilter && (quantity * currentPrice) <
    parseFloat(minNotionalFilter.minNotional)]. *)
Definition below_minNotional (f : option Filter) (quantity currentPrice : number) : bool :=
  match f with
  | Some f => lt (quantity * currentPrice) (minNotional f)
  | None => false
  end.

(** [executeBuyOrder(symbol, investmentAmountUsdt, currentPrice, symbolInfo,
    availableQuoteBalance)]; [None] is the source's [null]. *)
Definition executeBuyOrder (cfg : Config) (symbol : string)
    (investmentAmountUsdt currentPrice : number) (symbolInfo : SymbolInfo)
    (availableQuoteBalance : number) : Prog (option OrderResult) :=
  s <- get ;;
  if orderInProgress s then
    logger LWarn "Ordem de compra já em progresso. Ignorando nova tentativa." ;;
    ret None
  else
    modify (set_orderInProgress true) ;;
    setSymbolInfo symbolInfo ;;
    try_finally
      (try_catch
         (quantity <- applyExchangeFilter cfg "LOT_SIZE"
                        (investmentAmountUsdt / currentPrice) ;;
          mnf <- minNotionalFilter ;;
          if below_minNotional mnf quantity currentPrice then
            formatted quantity (quantityPrecision (strategy cfg)) ;;
            logger LWarn "Quantidade calculada resultaria em um valor abaixo do MIN_NOTIONAL. Ordem cancelada." ;;
            modify (set_orderInProgress false) ;;
            ret None
          else if gt investmentAmountUsdt availableQuoteBalance then
            logger LWarn "Saldo insuficiente para compra." ;;
            modify (set_orderInProgress false) ;;
            ret None
          else
            formatted quantity (quantityPrecision (strategy cfg)) ;;
            formatted currentPrice (pricePrecision (strategy cfg)) ;;
            logger LInfo "Preparando ordem de COMPRA" ;;
            order <- await (createOrder (mkOrderRequest symbol SIDE_BUY "MARKET" quantity)) ;;
            let executedQty := executedQty order in
            let totalQuoteAmount := cummulativeQuoteQty order in
            let avgPrice := totalQuoteAmount / executedQty in
            formatted avgPrice (pricePrecision (strategy cfg)) ;;
            formatted totalQuoteAmount (pricePrecision (strategy cfg)) ;;
            logger LTrade "Ordem de COMPRA EXECUTADA" ;;
            timestamp <- perform Date_now ;;
            StateManager.saveTrade
              (mkTrade symbol (orderId order) SIDE_BUY "MARKET" executedQty avgPrice
                 timestamp 0 None) ;;
            ret (Some (mkOrderResult executedQty avgPrice None)))
         (fun error =>
            logger LError (String.append "Falha ao executar ordem de COMPRA: " (message error)) ;;
            modify (set_orderInProgress false) ;;
            ret None))
      (modify (set_orderInProgress false)).

(** [this.stateManager.position.entryPrice].  The StateManager object has no
    property [position], so the first read yields [undefined] and the
    second one throws; had it one, [entryPrice] would be read from what it
    refers to ([undefined], in arithmetic [nan], unless it is the bot). *)
Definition stateManager_position_entryPrice : Prog number :=
  s <- get ;;
  match StateManager.get_property s "position" with
  | None => throw (TypeError "Cannot read properties of undefined (reading 'entryPrice')")
  | Some StateManager.ref_null =>
      throw (TypeError "Cannot read properties of null (reading 'entryPrice')")
  | Some StateManager.ref_bot => ret (entryPrice s)
  | Some _ => ret nan
  end.

(** The part of [executeSellOrder] from the preparation log on, for the
    quantity settled by the balance check. *)
Definition submit_sell (cfg : Config) (position : Position) (currentPrice : number)
    (quantityToSell : number) (reason : RiskManager.Reason)
    : Prog (option OrderResult) :=
  formatted quantityToSell (quantityPrecision (strategy cfg)) ;;
  formatted currentPrice (pricePrecision (strategy cfg)) ;;
  logger LInfo "Preparando ordem de VENDA" ;;
  order <- await (createOrder
                    (mkOrderRequest (symbol (strategy cfg)) SIDE_SELL "MARKET" quantityToSell)) ;;
  let executedQty := executedQty order in
  let totalQuoteAmount := cummulativeQuoteQty order in
  let avgPrice := totalQuoteAmount / executedQty in
  stateEntryPrice <- stateManager_position_entryPrice ;;
  let profitLoss := (avgPrice - stateEntryPrice) * executedQty in
  formatted avgPrice (pricePrecision (strategy cfg)) ;;
  formatted totalQuoteAmount (pricePrecision (strategy cfg)) ;;
  formatted profitLoss (pricePrecision (strategy cfg)) ;;
  logger LTrade "Ordem de VENDA EXECUTADA" ;;
  timestamp <- perform Date_now ;;
  StateManager.saveTrade
    (mkTrade (symbol (strategy cfg)) (orderId order) SIDE_SELL "MARKET" executedQty
       avgPrice timestamp profitLoss (Some reason)) ;;
  StateManager.updateDailyStats profitLoss 1 ;;
  ret (Some (mkOrderResult executedQty avgPrice (Some profitLoss))).

(** [executeSellOrder(position, currentPrice, symbolInfo,
    availableBaseBalance, reason)]; [None] is the source's [null]. *)
Definition executeSellOrder (cfg : Config) (position : Position)
    (currentPrice : number) (symbolInfo : SymbolInfo)
    (availableBaseBalance : number) (reason : RiskManager.Reason)
    : Prog (option OrderResult) :=
  s <- get ;;
  if orderInProgress s then
    logger LWarn "Ordem de venda já em progresso. Ignorando nova tentativa." ;;
    ret None
  else
    modify (set_orderInProgress true) ;;
    setSymbolInfo symbolInfo ;;
    try_finally
      (try_catch
         (quantityToSell <- applyExchangeFilter cfg "LOT_SIZE" (amount position) ;;
          mnf <- minNotionalFilter ;;
          if below_minNotional mnf quantityToSell currentPrice then
            formatted quantityToSell (quantityPrecision (strategy cfg)) ;;
            logger LWarn "Quantidade calculada para venda resultaria em um valor abaixo do MIN_NOTIONAL. Ajustando para o mínimo ou cancelando." ;;
            modify (set_orderInProgress false) ;;
            ret None
          else if gt quantityToSell availableBaseBalance then
            formatted quantityToSell (quantityPrecision (strategy cfg)) ;;
            formatted availableBaseBalance (quantityPrecision (strategy cfg)) ;;
            logger LWarn "Saldo insuficiente para venda." ;;
            quantityToSell <- applyExchangeFilter cfg "LOT_SIZE" availableBaseBalance ;;
            formatted quantityToSell (quantityPrecision (strategy cfg)) ;;
            logger LWarn "Ajustando quantidade de venda para o máximo disponível." ;;
            if strict_eq quantityToSell 0 then
              logger LError "Quantidade ajustada para zero. Impossível vender." ;;
              modify (set_orderInProgress false) ;;
              ret None
            else submit_sell cfg position currentPrice quantityToSell reason
          else submit_sell cfg position currentPrice quantityToSell reason)
         (fun error =>
            logger LError (String.append "Falha ao executar ordem de VENDA: " (message error)) ;;
            modify (set_orderInProgress false) ;;
            ret None))
      (modify (set_orderInProgress false)).

End TradeExecutor.

(** ** Orchestrator (src/core/BinanceTradingBot.js) *)

Module BinanceTradingBot.
Import JS Async.
Local Open Scope prog_scope.
Local Open Scope float_scope.

(** [this.accountBalances[asset].free]: the balance object is [undefined]
    for an asset the map has no entry for. *)
Definition free_balance (asset : string) : Prog number :=
  s <- get ;;
  match accountBalances s !! asset with
  | Some b => ret (free b)
  | None => throw (TypeError "Cannot read properties of undefined (reading 'free')")
  end.

(** The body of the [try] block of [processNewPrice]. *)
Definition processNewPrice_body (cfg : Config) (rm : RiskManager.t) : Prog unit :=
  (* 1. signal *)
  s <- get ;;
  let '(signal, sp) := SignalProcessor.processPrice (signalProcessor s) (lastPrice s) in
  modify (set_signalProcessor sp) ;;
  (match signal with
   | Some _ => logger LSignal "Sinal detectado"
   | None => ret tt
   end) ;;
  (* 2. exit conditions *)
  s <- get ;;
  exitAction <- lift (RiskManager.checkExitConditions cfg (position s) (entryPrice s)
                        (highestPrice s) (lastPrice s)
                        (stopLossPercentage (strategy cfg))
                        (takeProfitPercentage (strategy cfg))
                        (trailingStopPercentage (strategy cfg))) ;;
  (match exitAction with
   | Some exitAction =>
       logger LWarn "Condição de saída detectada" ;;
       s <- get ;;
       available <- free_balance (asset (position s)) ;;
       _ <- TradeExecutor.executeSellOrder cfg (position s) (lastPrice s)
              (symbolInfo s) available (RiskManager.reason exitAction) ;;
       modify (fun s =>
         set_position (mkPosition false 0 (asset (position s)) (quoteAsset (position s))) s) ;;
       modify (set_entryPrice 0) ;;
       modify (set_highestPrice 0) ;;
       StateManager.saveState
   | None => ret tt
   end) ;;
  (* 3. entry *)
  s <- get ;;
  (if negb (holding (position s)) &&
      match signal with Some SignalProcessor.BUY => true | _ => false end
   then
     let riskCheck :=
       RiskManager.checkDailyRiskLimits rm cfg (dailyStats s)
         (investmentAmount (strategy cfg)) in
     if RiskManager.canTrade riskCheck then
       logger LInfo "Sinal de compra e limites de risco ok. Preparando compra." ;;
       available <- free_balance (quoteAsset (position s)) ;;
       orderResult <- TradeExecutor.executeBuyOrder cfg (symbol (strategy cfg))
                        (investmentAmount (strategy cfg)) (lastPrice s)
                        (symbolInfo s) available ;;
       match orderResult with
       | Some orderResult =>
           modify (fun s =>
             set_position
               (mkPosition true (r_executedQty orderResult)
                  (asset (position s)) (quoteAsset (position s))) s) ;;
           modify (set_entryPrice (r_avgPrice orderResult)) ;;
           modify (fun s => set_highestPrice (entryPrice s) s) ;;
           modify (fun s =>
             let d := dailyStats s in
             set_dailyStats
               (mkDailyStats (trades d + 1) (profit d) (startTime d) (dailyProfits d)) s) ;;
           StateManager.saveState
       | None => ret tt
       end
     else logger LWarn "Não é possível comprar"
   else ret tt) ;;
  (* 4. highest price *)
  modify (fun s =>
    if holding (position s) && gt (lastPrice s) (highestPrice s)
    then set_highestPrice (lastPrice s) s else s).

(** [processNewPrice(kline)], for the closing price of the candle. *)
Definition processNewPrice (cfg : Config) (rm : RiskManager.t) (close : number)
    : Prog unit :=
  s <- get ;;
  if negb (isInitialized s) then
    logger LDebug "Bot não inicializado, ignorando novo preço."
  else
    modify (set_lastPrice close) ;;
    logger LDebug "Novo preço recebido" ;;
    try_catch
      (processNewPrice_body cfg rm)
      (fun error =>
         ErrorHandler.handleCriticalError cfg error
           (String.append "Erro ao processar novo preço para " (symbol (strategy cfg)))
           ErrorHandler.shouldExit_default).

End BinanceTradingBot.

(** ** The collaborators, as an environment to run the engine against

    The exchange client, the database and the Telegram client are outside
    the engine (see section 6 of the specification).  [World.t] is an
    executable stand-in for them, used to run a task to its end without
    interference from other tasks: the exchange answers by a given function
    and keeps what it received, the trade table rejects a repeated order id,
    the bot_state table holds one row. *)

Module World.
Import JS Async.

Record t := mk {
  exchange : OrderRequest -> Settled Order;
  received : list OrderRequest;
  trade_table : list Trade;
  bot_state : option BotStateRow;
  db_available : bool;
  telegram_available : bool;
  messages : list string;
  clock : Z
}.

Definition db_error : Error := mkError "SequelizeConnectionError" "connection refused".

Definition answer {X} (call : Call X) (w : t) : X * t :=
  match call in Call X return X * t with
  | createOrder req =>
      (exchange w req,
       mk (exchange w) (received w ++ [req]) (trade_table w) (bot_state w)
          (db_available w) (telegram_available w) (messages w) (clock w))
  | TradeModel_create tr =>
      if negb (db_available w) then (Rejected db_error, w)
      else if existsb (fun r => t_orderId r =? t_orderId tr) (trade_table w)
      then (Rejected (mkError "SequelizeUniqueConstraintError" "Validation error"), w)
      else (Fulfilled tt,
            mk (exchange w) (received w) (trade_table w ++ [tr]) (bot_state w)
               (db_available w) (telegram_available w) (messages w) (clock w))
  | BotStateModel_findOne =>
      if db_available w then (Fulfilled (bot_state w), w) else (Rejected db_error, w)
  | BotStateModel_upsert row =>
      if db_available w
      then (Fulfilled tt,
            mk (exchange w) (received w) (trade_table w) (Some row)
               (db_available w) (telegram_available w) (messages w) (clock w))
      else (Rejected db_error, w)
  | syncDatabase =>
      if db_available w then (Fulfilled tt, w) else (Rejected db_error, w)
  | sendMessage text =>
      if telegram_available w
      then (Fulfilled tt,
            mk (exchange w) (received w) (trade_table w) (bot_state w)
               (db_available w) (telegram_available w) (messages w ++ [text]) (clock w))
      else (Rejected (mkError "Error" "ETELEGRAM"), w)
  | Date_now => (clock w, w)
  end.

(** Running a task to its end: each awaited call is answered by the world
    and the task resumes at once, on the object graph it left. *)
Fixpoint run {R} (task : Task R) (w : t) : Completion R * State * t :=
  match task with
  | Done c s => (c, s, w)
  | Await call s k => let '(x, w') := answer call w in run (k x s) w'
  end.

(** The world with its clock set to [now]. *)
Definition at_time (now : Z) (w : t) : t :=
  mk (exchange w) (received w) (trade_table w) (bot_state w)
     (db_available w) (telegram_available w) (messages w) now.

End World.

(** A process: price events are handled one after the other, each to its
    end, as long as the process has not exited. *)
Fixpoint process_events (cfg : Config) (rm : RiskManager.t) (events : list JS.number)
    (s : State) (w : World.t) : option Z * State * World.t :=
  match events with
  | [] => (None, s, w)
  | close :: events' =>
      match World.run (BinanceTradingBot.processNewPrice cfg rm close s) w with
      | (Async.Exit code, s', w') => (Some code, s', w')
      | (_, s', w') => process_events cfg rm events' s' w'
      end
  end.

(** ** The exponential average as the specification words it *)

Module Spec.
Import JS.
Local Open Scope float_scope.

(** Section 4.1 of the specification: the seed value is the simple average
    of the first [period] prices, and the recurrence is then applied to the
    prices after them. *)
Definition ema_seeded_by_first_window (data : list number) (period : Z) : number :=
  let k := 2 / of_Z (period + 1) in
  let seed := sum (take (Z.to_nat period) data) / of_Z period in
  fold_left (fun ema x => x * k + ema * (1 - k)) (drop (Z.to_nat period) data) seed.

End Spec.

(** ** The legacy averages (src/bot.js) *)

Module LegacyBot.
Import JS.
Local Open Scope float_scope.

(** The fields of the legacy bot that its averages read and write. *)
Record t := mk {
  shortPeriod : Z;
  longPeriod : Z;
  useEMA : bool;
  prices : list number;
  shortMA : list number;
  longMA : list number
}.

(** [arr[arr.length - 1]]; [undefined], in arithmetic [nan], for an empty
    array. *)
Definition last_of (arr : list number) : number := default nan (last arr).

(** [if (arr.length > 50) arr.shift()]. *)
Definition keep_50 (arr : list number) : list number :=
  if (50 <? length arr)%nat then shift arr else arr.

(** [calculateEMA()]. *)
Definition calculateEMA (this : t) : t :=
  match prices this with
  | [] => this
  | _ =>
      let shortAlpha := 2 / of_Z (shortPeriod this + 1) in
      let longAlpha := 2 / of_Z (longPeriod this + 1) in
      let currentPrice := last_of (prices this) in
      let shortMA' :=
        match shortMA this with
        | [] =>
            push (shortMA this)
              (sum (slice (prices this) (- shortPeriod this)) / of_Z (shortPeriod this))
        | _ =>
            push (shortMA this)
              (currentPrice * shortAlpha + last_of (shortMA this) * (1 - shortAlpha))
        end in
      let longMA' :=
        match longMA this with
        | [] =>
            if (longPeriod this <=? Z.of_nat (length (prices this)))%Z
            then push (longMA this)
                   (sum (slice (prices this) (- longPeriod this)) / of_Z (longPeriod this))
            else longMA this
        | _ =>
            push (longMA this)
              (currentPrice * longAlpha + last_of (longMA this) * (1 - longAlpha))
        end in
      mk (shortPeriod this) (longPeriod this) (useEMA this) (prices this)
        (keep_50 shortMA') (keep_50 longMA')
  end.

(** [calculateSMA()]. *)
Definition calculateSMA (this : t) : t :=
  let shortMA' :=
    push (shortMA this)
      (sum (slice (prices this) (- shortPeriod this)) / of_Z (shortPeriod this)) in
  let longMA' :=
    push (longMA this)
      (sum (slice (prices this) (- longPeriod this)) / of_Z (longPeriod this)) in
  mk (shortPeriod this) (longPeriod this) (useEMA this) (prices this)
    (keep_50 shortMA') (keep_50 longMA').

(** [calculateMovingAverages()]. *)
Definition calculateMovingAverages (this : t) : t :=
  if (Z.of_nat (length (prices this)) <? longPeriod this)%Z then this
  else if useEMA this then calculateEMA this else calculateSMA this.

(** The buffer update of the legacy [processNewPrice], for a price already
    rounded to the price precision: push, cap at 200, recompute. *)
Definition observe (this : t) (price : number) : t :=
  let prices1 := push (prices this) price in
  let prices2 := if (200 <? length prices1)%nat then shift prices1 else prices1 in
  calculateMovingAverages
    (mk (shortPeriod this) (longPeriod this) (useEMA this) prices2
       (shortMA this) (longMA this)).

End LegacyBot.

(** ** Auxiliary notions for the statements *)

(** The in-flight flag is clear and the process has not exited. *)
Definition cleared (R : Type) (c : Async.Completion R) (s : State) : Prop :=
  orderInProgress s = false /\ forall n, c <> Async.Exit n.

(** The state a task publishes when it first suspends. *)
Definition suspended_in {R} (t : Async.Task R) : option State :=
  match t with
  | Async.Done _ _ => None
  | Async.Await _ s _ => Some s
  end.

(** The fields of the orchestrator itself. *)
Definition bot_fields (s : State) :=
  (isInitialized s, position s, entryPrice s, highestPrice s, lastPrice s,
   dailyStats s, accountBalances s, symbolInfo s, signalProcessor s).

(** The context string [processNewPrice] hands to the error handler. *)
Definition tick_context (cfg : Config) : string :=
  String.append "Erro ao processar novo preço para " (symbol (strategy cfg)).

(** The state in which the [try] block of [processNewPrice] starts. *)
Definition tick_start (close : JS.number) (s : State) : State :=
  add_log LDebug "Novo preço recebido" (set_lastPrice close s).

(** The historical list after a rollover: the day's profit is appended
    unless it is zero. *)
Definition archived (label : string) (old : DailyStats) : list DailyProfit :=
  if JS.strict_ne (profit old) 0%float
  then dailyProfits old ++ [mkDailyProfit label (profit old)]
  else dailyProfits old.

(** ** Scenario data of the concrete checks *)

Definition cfg0 : Config :=
  mkConfig
    (mkStrategy "BTCUSDT" 10 30 10%float 0.02%float 0.02%float 0.005%float 2 5 None)
    false (fun _ => 0).

Definition rm0 : RiskManager.t := RiskManager.mk 0.05%float 5.

Definition lot_size_001 : SymbolInfo :=
  mkSymbolInfo "BTCUSDT" [mkFilter "LOT_SIZE" nan 0.001%float nan].

Definition idle_state : State :=
  mkState true (mkPosition false 0%float "BTC" "USDT") 0%float 0%float 0%float
    (mkDailyStats 0 0%float 0 []) ∅ lot_size_001
    (SignalProcessor.new 10 30) false (Some lot_size_001) false false [].

(** Half a BTC held since 100, with a stop loss of 2 percent configured. *)
Definition btc_filters : SymbolInfo :=
  mkSymbolInfo "BTCUSDT"
    [mkFilter "PRICE_FILTER" 0.01%float nan nan;
     mkFilter "LOT_SIZE" nan 0.001%float nan;
     mkFilter "MIN_NOTIONAL" nan nan 10%float].

Definition held_state : State :=
  mkState true (mkPosition true 0.5%float "BTC" "USDT") 100%float 100%float 100%float
    (mkDailyStats 1 0%float 0 [])
    (<["BTC" := mkBalance 0.5%float 0%float]>
       (<["USDT" := mkBalance 1000%float 0%float]> ∅))
    btc_filters (SignalProcessor.new 10 30) false None true false [].

(** An exchange that fills every order completely at 97. *)
Definition filling_world : World.t :=
  World.mk
    (fun req =>
       Async.Fulfilled
         (mkOrder 42 "FILLED" (or_quantity req) (or_quantity req * 97)%float))
    [] [] None true true [] 1700000000000.

(** An exchange that rejects every order. *)
Definition rejecting_world : World.t :=
  World.mk
    (fun req => Async.Rejected (JS.mkError "Error" "Request failed with status code 400"))
    [] [] None true true [] 1700000000000.

(** A trailing stop of 0 percent, and a position whose highest price so far
    is 105. *)
Definition cfg_trailing_zero : Config :=
  mkConfig
    (mkStrategy "BTCUSDT" 10 30 10%float 0.5%float 0.5%float 0%float 2 5 None)
    false (fun _ => 0).

Definition held_high_105 : State := set_highestPrice 105%float held_state.

(** The state persisted on 2023-11-13 (UTC) with three trades and the
    profit [p], found by a process started on 2023-11-14. *)
Definition yesterday_row (p : JS.number) : BotStateRow :=
  mkBotStateRow true 0.5%float "BTC" "USDT" 100%float 100%float 100%float
    (mkDailyStats 3 p 1699900000000 []) ∅ 1699900000000.

Definition next_day_world (p : JS.number) : World.t :=
  World.mk (World.exchange rejecting_world) [] [] (Some (yesterday_row p))
    true true [] 1700000000000.


(* ===================================================================== *)
(** * Part II.  Properties                                                *)
(* ===================================================================== *)

(** ** Number helpers *)

Section NumberFacts.
Import JS.
Local Open Scope float_scope.

Example Math_floor_examples :
  Math_floor 1234.56 = 1234 /\ Math_floor 0.9 = 0 /\
  Math_floor (-0.5) = -1 /\ Math_floor (-3) = -3 /\ Math_floor 7 = 7.
Proof. repeat split; vm_compute; reflexivity. Qed.

Lemma toFixed_in_range x digits :
  (0 <= digits <= 100)%Z -> exists str, toFixed x digits = inr str.
Proof.
  intros Hd. unfold toFixed.
  replace ((digits <? 0)%Z || (100 <? digits)%Z) with false
    by (symmetry; apply orb_false_iff; split; lia).
  destruct (Prim2SF x); try destruct (PrimFloat.leb _ _); eauto.
Qed.

Lemma format_all_in_range xs digits :
  (0 <= digits <= 100)%Z -> format_all xs digits = inr tt.
Proof.
  intros Hd. induction xs as [|x xs IH]; simpl; [reflexivity|].
  destruct (toFixed_in_range x digits Hd) as [str ->]. exact IH.
Qed.

Lemma toFixed_out_of_range x digits :
  (digits < 0 \/ 100 < digits)%Z ->
  toFixed x digits = inl (RangeError "toFixed() digits argument must be between 0 and 100").
Proof.
  intros Hd. unfold toFixed.
  replace ((digits <? 0)%Z || (100 <? digits)%Z) with true; [reflexivity|].
  symmetry; apply orb_true_iff. lia.
Qed.

(** A property of every integer of a range, from its instances. *)
Lemma Z_range_ind (P : Z -> Prop) (lo : Z) (n : nat) :
  (forall i : nat, (i < n)%nat -> P (lo + Z.of_nat i)%Z) ->
  forall p, (lo <= p < lo + Z.of_nat n)%Z -> P p.
Proof.
  intros H p Hp.
  replace p with (lo + Z.of_nat (Z.to_nat (p - lo)))%Z by lia.
  apply H. lia.
Qed.

Example civil_examples :
  Date.civil 0 = (1970, 1, 1)%Z /\ Date.civil (-1) = (1969, 12, 31)%Z /\
  Date.civil 11016 = (2000, 2, 29)%Z /\ Date.civil 19675 = (2023, 11, 14)%Z /\
  Date.toISOString_date 1700000000000 = inr "2023-11-14"%string.
Proof. repeat split; vm_compute; reflexivity. Qed.

End NumberFacts.

(** ** Risk manager *)

Section ExitConditions.
Import JS RiskManager.
Local Open Scope float_scope.

Variable cfg : Config.
Hypothesis precision_ok : (0 <= pricePrecision (strategy cfg) <= 100)%Z.

(** With a display precision that [toFixed] accepts, the exit check is the
    three tests in their order. *)
Lemma checkExitConditions_unfold position e h c sl tp tsp :
  checkExitConditions cfg position e h c sl tp tsp =
  inr (if negb (holding position) then None
       else if le ((c - e) / e) (- sl) then Some (mkExit STOP_LOSS c)
       else if ge ((c - e) / e) tp then Some (mkExit TAKE_PROFIT c)
       else if le c (h * (1 - tsp)) && gt h e then Some (mkExit TRAILING_STOP c)
       else None).
Proof.
  unfold checkExitConditions.
  destruct (negb (holding position)); [reflexivity|].
  rewrite !format_all_in_range by exact precision_ok.
  repeat (match goal with |- context [if ?b then _ else _] => destruct b end;
          try reflexivity).
Qed.

End ExitConditions.

(** C8. The exit check returns no exit when no position is held; otherwise
    it reports STOP_LOSS exactly when the profit ratio
    [(currentPrice - entryPrice) / entryPrice] is at most the stop-loss
    threshold [- stopLossPercentage], TAKE_PROFIT exactly when that test
    fails and the ratio is at least [takeProfitPercentage], TRAILING_STOP
    exactly when both fail, [highestPrice > entryPrice] and
    [currentPrice <= highestPrice * (1 - trailingStopPercentage)], and no
    exit exactly when all three fail.  With entry price 100 and a 2 percent
    stop-loss, the price 97.9 gives STOP_LOSS and the price 98.1 does not,
    whatever the other thresholds and the highest price are. *)
Theorem checkExitConditions_first_match_wins
    (cfg : Config) (position : Position)
    (entryPrice highestPrice currentPrice : JS.number)
    (stopLossPercentage takeProfitPercentage trailingStopPercentage : JS.number) :
  (0 <= pricePrecision (strategy cfg) <= 100)%Z ->
  let pnlPct := ((currentPrice - entryPrice) / entryPrice)%float in
  let stop := JS.le pnlPct (- stopLossPercentage)%float in
  let take := JS.ge pnlPct takeProfitPercentage in
  let trail :=
    JS.gt highestPrice entryPrice &&
    JS.le currentPrice (highestPrice * (1 - trailingStopPercentage))%float in
  let check := fun pos c =>
    RiskManager.checkExitConditions cfg pos entryPrice highestPrice c
      stopLossPercentage takeProfitPercentage trailingStopPercentage in
  let exit := fun r => inr (Some (RiskManager.mkExit r currentPrice)) in
  (holding position = false -> check position currentPrice = inr None) /\
  (holding position = true ->
     (check position currentPrice = exit RiskManager.STOP_LOSS <-> stop = true) /\
     (check position currentPrice = exit RiskManager.TAKE_PROFIT <->
        stop = false /\ take = true) /\
     (check position currentPrice = exit RiskManager.TRAILING_STOP <->
        stop = false /\ take = false /\ trail = true) /\
     (check position currentPrice = inr None <->
        stop = false /\ take = false /\ trail = false)) /\
  (holding position = true -> entryPrice = 100%float ->
   stopLossPercentage = 0.02%float ->
     check position 97.9%float =
       inr (Some (RiskManager.mkExit RiskManager.STOP_LOSS 97.9%float)) /\
     forall a,
       check position 98.1%float = inr (Some a) ->
       RiskManager.reason a <> RiskManager.STOP_LOSS).
Proof.
  intros Hp pnlPct stop take trail check exit. subst check exit.
  split; [|split].
  - intros Hh. rewrite checkExitConditions_unfold by exact Hp.
    now rewrite Hh.
  - intros Hh. rewrite checkExitConditions_unfold by exact Hp.
    rewrite Hh. cbn [negb].
    fold pnlPct. fold stop. fold take.
    assert (Ht : JS.le currentPrice (highestPrice * (1 - trailingStopPercentage))%float
                 && JS.gt highestPrice entryPrice = trail)
      by (subst trail; apply andb_comm).
    rewrite Ht.
    destruct stop, take, trail; repeat split; intros; try discriminate;
      try reflexivity; intuition discriminate.
  - intros Hh -> ->. rewrite !checkExitConditions_unfold by exact Hp.
    rewrite Hh. cbn [negb].
    assert (H979 : JS.le ((97.9 - 100) / 100)%float (PrimFloat.opp 0.02%float) = true)
      by (vm_compute; reflexivity).
    assert (H981 : JS.le ((98.1 - 100) / 100)%float (PrimFloat.opp 0.02%float) = false)
      by (vm_compute; reflexivity).
    rewrite H979, H981.
    split; [reflexivity|].
    intros a Ha.
    repeat (match type of Ha with context [if ?b then _ else _] => destruct b end);
      inversion Ha; subst; cbn; discriminate.
Qed.

Lemma checkExitConditions_first_match_wins_witness :
  RiskManager.checkExitConditions cfg0 (mkPosition true 1%float "BTC" "USDT")
    100%float 100%float 97.9%float 0.02%float 0.02%float 0.005%float =
  inr (Some (RiskManager.mkExit RiskManager.STOP_LOSS 97.9%float)).
Proof.
  refine (proj1 (proj2 (proj2
    (checkExitConditions_first_match_wins cfg0 (mkPosition true 1%float "BTC" "USDT")
       100%float 100%float 97.9%float 0.02%float 0.02%float 0.005%float _))
    eq_refl eq_refl eq_refl)).
  vm_compute. split; discriminate.
Defined.

(** The trailing-stop fixture of the specification: entered at 100 with
    the highest price 110 and a trailing stop of 1 percent (take-profit out
    of reach), 108.9 leaves through the trailing stop and 109 does not. *)
Example trailing_stop_fixture :
  let check := fun c =>
    RiskManager.checkExitConditions cfg0 (mkPosition true 1%float "BTC" "USDT")
      100%float 110%float c 0.02%float 0.2%float 0.01%float in
  check 108.9%float = inr (Some (RiskManager.mkExit RiskManager.TRAILING_STOP 108.9%float)) /\
  check 109%float = inr None.
Proof. vm_compute. split; reflexivity. Qed.

(** ** Quantity quantization *)

Section Quantization.
Import JS Async TradeExecutor.
Local Open Scope float_scope.

Lemma quantize_step_001 (p : Z) :
  (3 <= p <= 100)%Z ->
  quantize 1.23456 0.001 p = inr 1.234 /\ quantize 0.0009 0.001 p = inr 0.
Proof.
  intros Hp.
  apply (Z_range_ind
           (fun p => quantize 1.23456 0.001 p = inr 1.234 /\
                     quantize 0.0009 0.001 p = inr 0) 3 98); [|lia].
  intros i Hi.
  do 98 (destruct i as [|i]; [vm_compute; split; reflexivity|]).
  lia.
Qed.

(** Just under the next step the quantity still goes down to the step
    below, and a coarser display precision rounds what the floor left. *)
Example quantize_floor_not_round :
  quantize 1.2349999 0.001 5 = inr 1.234 /\
  quantize 1.2359 0.001 5 = inr 1.235 /\
  quantize 1.2359 0.001 2 = inr 1.24.
Proof. repeat split; vm_compute; reflexivity. Qed.

Lemma applyExchangeFilter_LOT_SIZE_unfold cfg s si f value :
  te_symbolInfo s = Some si ->
  find_filter "LOT_SIZE" si = Some f ->
  applyExchangeFilter cfg "LOT_SIZE" value s =
  lift (quantize value (stepSize f) (quantityPrecision (strategy cfg))) s.
Proof.
  intros Hsi Hf. unfold applyExchangeFilter, bind, get. cbn [bindT].
  rewrite Hsi, Hf. reflexivity.
Qed.

End Quantization.

(** C10. With a LOT_SIZE filter loaded and a display precision that
    [toFixed] accepts, the applied quantity is
    [Math.floor(value / stepSize) * stepSize] written with
    [quantityPrecision] fraction digits and read back; with step size 0.001
    (and at least its three fraction digits displayed) 1.23456 becomes 1.234
    and 0.0009 becomes 0. *)
Theorem applyExchangeFilter_floors_to_step
    (cfg : Config) (s : State) (si : SymbolInfo) (f : Filter) (value : JS.number) :
  te_symbolInfo s = Some si ->
  TradeExecutor.find_filter "LOT_SIZE" si = Some f ->
  (0 <= quantityPrecision (strategy cfg) <= 100)%Z ->
  (exists str,
     JS.toFixed (JS.Math_floor (value / stepSize f) * stepSize f)%float
       (quantityPrecision (strategy cfg)) = inr str /\
     TradeExecutor.applyExchangeFilter cfg "LOT_SIZE" value s =
       Async.Done (Async.Normal (JS.parseFloat str)) s) /\
  (stepSize f = 0.001%float -> (3 <= quantityPrecision (strategy cfg))%Z ->
     TradeExecutor.applyExchangeFilter cfg "LOT_SIZE" 1.23456%float s =
       Async.Done (Async.Normal 1.234%float) s /\
     TradeExecutor.applyExchangeFilter cfg "LOT_SIZE" 0.0009%float s =
       Async.Done (Async.Normal 0%float) s).
Proof.
  intros Hsi Hf Hp. split.
  - destruct (toFixed_in_range
                (JS.Math_floor (value / stepSize f) * stepSize f)%float
                (quantityPrecision (strategy cfg)) Hp) as [str Hstr].
    exists str. split; [exact Hstr|].
    rewrite (applyExchangeFilter_LOT_SIZE_unfold cfg s si f value Hsi Hf).
    unfold TradeExecutor.quantize. rewrite Hstr. reflexivity.
  - intros Hstep Hp3.
    rewrite !(applyExchangeFilter_LOT_SIZE_unfold cfg s si f _ Hsi Hf), Hstep.
    destruct (quantize_step_001 (quantityPrecision (strategy cfg))) as [-> ->];
      [lia|]. split; reflexivity.
Qed.

Lemma applyExchangeFilter_floors_to_step_witness :
  TradeExecutor.applyExchangeFilter cfg0 "LOT_SIZE" 1.23456%float idle_state =
    Async.Done (Async.Normal 1.234%float) idle_state /\
  TradeExecutor.applyExchangeFilter cfg0 "LOT_SIZE" 0.0009%float idle_state =
    Async.Done (Async.Normal 0%float) idle_state.
Proof.
  refine (proj2 (applyExchangeFilter_floors_to_step cfg0 idle_state lot_size_001
                   (mkFilter "LOT_SIZE" nan 0.001%float nan) 0%float
                   eq_refl eq_refl _) eq_refl _).
  - vm_compute. split; discriminate.
  - vm_compute. discriminate.
Defined.

(** ** Signal processor *)

Section ColdStart.
Import JS SignalProcessor.

(** While the buffer holds fewer than [longMASize] prices after the push,
    an observation only extends the buffer, empties both average arrays
    and returns no signal. *)
Lemma processPrice_cold (this : t) (p : number) :
  Z.of_nat (length (prices this)) + 1 < longMASize this ->
  processPrice this p =
    (None, mk (shortMASize this) (longMASize this) (prices this ++ [p]) [] []).
Proof.
  intros Hlen. unfold processPrice, push.
  assert (Hl : Z.of_nat (length (prices this ++ [p])) =
               Z.of_nat (length (prices this)) + 1)
    by (rewrite length_app; simpl; lia).
  replace (longMASize this * 2 <? Z.of_nat (length (prices this ++ [p])))
    with false by (symmetry; apply Z.ltb_ge; lia).
  unfold calculateMovingAverages. cbn [prices longMASize shortMASize].
  replace (Z.of_nat (length (prices this ++ [p])) <? longMASize this)
    with true by (symmetry; apply Z.ltb_lt; lia).
  reflexivity.
Qed.

Lemma feed_cold (ps : list number) :
  forall (this : t) (i : nat) (signal : option Signal),
    (feed this ps).1 !! i = Some signal ->
    Z.of_nat (length (prices this)) + Z.of_nat i + 1 < longMASize this ->
    signal = None.
Proof.
  induction ps as [|p ps IH]; intros this i signal Hi Hlen; [discriminate Hi|].
  cbn [feed] in Hi.
  rewrite processPrice_cold in Hi by lia.
  destruct (feed _ ps) as [ss this2] eqn:Hfeed.
  destruct i as [|i]; cbn in Hi.
  - congruence.
  - apply (IH (mk (shortMASize this) (longMASize this) (prices this ++ [p]) [] [])
              i signal).
    + rewrite Hfeed. exact Hi.
    + cbn [prices longMASize]. rewrite length_app. simpl. lia.
Qed.

Lemma feed_length (ps : list number) :
  forall this : t, length (feed this ps).1 = length ps.
Proof.
  induction ps as [|p ps IH]; intros this; [reflexivity|].
  cbn [feed]. destruct (processPrice this p) as [s this1].
  specialize (IH this1). destruct (feed this1 ps) as [ss this2].
  cbn in *. now rewrite IH.
Qed.

(** A history shorter than the long period is taken as it is, and leaves
    both average arrays empty. *)
Lemma initializeData_cold (shortPeriod longPeriod : Z) (history : list number) :
  Z.of_nat (length history) < longPeriod ->
  initializeData (new shortPeriod longPeriod) history =
    mk shortPeriod longPeriod history [] [].
Proof.
  intros Hlen. destruct history as [|h history]; [reflexivity|].
  unfold initializeData, new. cbn [shortMASize longMASize shortMA longMA].
  replace (Z.max shortPeriod longPeriod * 2 <? Z.of_nat (length (h :: history)))
    with false by (symmetry; apply Z.ltb_ge; lia).
  unfold calculateMovingAverages. cbn [prices longMASize shortMASize].
  replace (Z.of_nat (length (h :: history)) <? longPeriod)
    with true by (symmetry; apply Z.ltb_lt; lia).
  reflexivity.
Qed.

End ColdStart.

(** C9. For configured periods with [shortPeriod < longPeriod], a signal
    processor started on any history and then fed any prices returns no
    signal from an observation by which fewer than [longPeriod] prices have
    been fed in total (history included). *)
Theorem no_signal_before_longPeriod
    (shortPeriod longPeriod : Z) (history prices : list JS.number)
    (i : nat) (signal : option SignalProcessor.Signal) :
  shortPeriod < longPeriod ->
  (SignalProcessor.feed
     (SignalProcessor.initializeData
        (SignalProcessor.new shortPeriod longPeriod) history) prices).1 !! i
    = Some signal ->
  Z.of_nat (length history) + Z.of_nat i + 1 < longPeriod ->
  signal = None.
Proof.
  intros _ Hi Hlen.
  rewrite initializeData_cold in Hi by lia.
  apply (feed_cold prices _ i signal Hi).
  cbn. lia.
Qed.

Lemma no_signal_before_longPeriod_witness :
  default (Some SignalProcessor.BUY)
    ((SignalProcessor.feed
        (SignalProcessor.initializeData (SignalProcessor.new 2 4) [1%float])
        [2%float; 3%float; 9%float; 1%float]).1 !! 1%nat) = None.
Proof.
  apply (no_signal_before_longPeriod 2 4 [1%float]
           [2%float; 3%float; 9%float; 1%float] 1).
  - reflexivity.
  - vm_compute. reflexivity.
  - reflexivity.
Defined.

(** ** Exponential average *)

Section ExponentialAverage.
Import JS SignalProcessor.
Local Open Scope float_scope.

(** What [calculateEMA] computes when called on the processor's own buffer
    with enough prices: the seed is the average of the last [period] prices
    of the buffer, and the recurrence then runs over every price but the
    first, the seed's own window included. *)
Lemma calculateEMA_seed_is_last_window (this : t) (period : Z) :
  (period <= Z.of_nat (length (prices this)))%Z ->
  calculateEMA this (prices this) period =
    fold_left (fun ema x => x * (2 / of_Z (period + 1))
                            + ema * (1 - 2 / of_Z (period + 1)))
      (tail (prices this))
      (sum (slice (prices this) (- period)) / of_Z period).
Proof.
  intros Hlen. unfold calculateEMA.
  replace (Z.of_nat (length (prices this)) <? period)%Z with false
    by (symmetry; apply Z.ltb_ge; lia).
  replace (period <=? Z.of_nat (length (prices this)))%Z with true
    by (symmetry; apply Z.leb_le; lia).
  reflexivity.
Qed.

(** The legacy bot, fed the same prices one at a time from an empty buffer,
    seeds its long average with the simple average of the first
    [longPeriod] prices and applies the recurrence to the prices after
    them. *)
Example legacy_long_average_is_seeded_by_first_window :
  let fed := fun ps => fold_left LegacyBot.observe ps (LegacyBot.mk 2 3 true [] [] []) in
  LegacyBot.longMA (fed [2; 4; 6]) = [4] /\
  LegacyBot.longMA (fed [4; 4; 4; 16]) = [4; 10] /\
  LegacyBot.last_of (LegacyBot.longMA (fed [1; 2; 3; 4; 5; 6]))
    = Spec.ema_seeded_by_first_window [1; 2; 3; 4; 5; 6] 3.
Proof. vm_compute. repeat split; reflexivity. Qed.

End ExponentialAverage.

(** C5 (the code departs from it). On the prices 2, 4, 6 with period 3 the
    specified average is its seed, the simple average 4 of the first three
    prices, with no later price to apply the recurrence to; the signal
    processor returns 5: it seeds with the average of the last three prices
    and then applies the recurrence to the second and third price again.
    On 4, 4, 4, 16 the specified value is 10 and the computed one 10.5. *)
Theorem calculateEMA_departs_from_first_window_seed :
  Spec.ema_seeded_by_first_window [2; 4; 6]%float 3 = 4%float /\
  SignalProcessor.calculateEMA
    (SignalProcessor.mk 3 3 [2; 4; 6]%float [] []) [2; 4; 6]%float 3 = 5%float /\
  Spec.ema_seeded_by_first_window [4; 4; 4; 16]%float 3 = 10%float /\
  SignalProcessor.calculateEMA
    (SignalProcessor.mk 3 3 [4; 4; 4; 16]%float [] []) [4; 4; 4; 16]%float 3
    = 10.5%float.
Proof. repeat split; vm_compute; reflexivity. Qed.

(** ** Tasks: how they compose, and how they run *)

Arguments JS.toFixed : simpl never.
Arguments JS.parseFloat : simpl never.
Arguments JS.Math_floor : simpl never.
Arguments JS.format_all : simpl never.
Arguments TradeExecutor.quantize : simpl never.
Arguments SignalProcessor.processPrice : simpl never.
Arguments RiskManager.checkExitConditions : simpl never.
Arguments RiskManager.checkDailyRiskLimits : simpl never.
Arguments Date.date_differs : simpl never.
Arguments Date.toISOString_date : simpl never.
Arguments remove_first : simpl never.
Arguments TradeExecutor.executeSellOrder : simpl never.
Arguments TradeExecutor.executeBuyOrder : simpl never.
Opaque SignalProcessor.processPrice RiskManager.checkExitConditions
  RiskManager.checkDailyRiskLimits.

Section TaskFacts.
Import JS Async.
Context {A B : Type}.

Lemma always_mono (P Q : Completion A -> State -> Prop) (t : Task A) :
  (forall c s, P c s -> Q c s) -> always P t -> always Q t.
Proof.
  intros HPQ. induction t as [c s|X call s k IH]; simpl; [apply HPQ|].
  intros H x s'. apply IH, H.
Qed.

Lemma always_bindT (P : Completion B -> State -> Prop) (t : Task A) (f : A -> Prog B) :
  always (fun c s =>
            match c with
            | Normal a => always P (f a s)
            | Throw e => P (Throw e) s
            | Exit n => P (Exit n) s
            end) t ->
  always P (bindT t f).
Proof.
  induction t as [c s|X call s k IH]; simpl.
  - destruct c; simpl; auto.
  - intros H x s'. apply IH, H.
Qed.

Lemma run_bindT (t : Task A) (f : A -> Prog B) (w : World.t) :
  World.run (bindT t f) w =
  match World.run t w with
  | (Normal a, s, w') => World.run (f a s) w'
  | (Throw e, s, w') => (Throw e, s, w')
  | (Exit n, s, w') => (Exit n, s, w')
  end.
Proof.
  revert w. induction t as [c s|X call s k IH]; intros w; simpl.
  - destruct c; reflexivity.
  - destruct (World.answer call w) as [x w']. apply IH.
Qed.

Lemma run_catchT (t : Task A) (h : Error -> Prog A) (w : World.t) :
  World.run (catchT t h) w =
  match World.run t w with
  | (Throw e, s, w') => World.run (h e s) w'
  | r => r
  end.
Proof.
  revert w. induction t as [c s|X call s k IH]; intros w; simpl.
  - destruct c; reflexivity.
  - destruct (World.answer call w) as [x w']. apply IH.
Qed.

(** A task that runs without interference ends as one of the ways it can
    go on. *)
Lemma always_run (P : Completion A -> State -> Prop) (t : Task A) (w : World.t) :
  always P t -> P (World.run t w).1.1 (World.run t w).1.2.
Proof.
  revert w. induction t as [c s|X call s k IH]; intros w H; simpl.
  - exact H.
  - destruct (World.answer call w) as [x w']. apply IH, H.
Qed.

End TaskFacts.

(** One step of a case analysis along a task: the next awaited answer, or
    the next test of the code. *)
Ltac branch :=
  match goal with
  | |- context [match ?x with _ => _ end] =>
      first [is_var x; destruct x | destruct x eqn:?]
  | |- forall _, _ => intro
  end.

Ltac branches := repeat (branch; simpl).

Ltac unfold_executor :=
  unfold TradeExecutor.executeSellOrder, TradeExecutor.executeBuyOrder,
    TradeExecutor.submit_sell, TradeExecutor.applyExchangeFilter,
    TradeExecutor.minNotionalFilter, TradeExecutor.setSymbolInfo,
    TradeExecutor.stateManager_position_entryPrice,
    StateManager.saveTrade, StateManager.updateDailyStats,
    Async.formatted, Async.logger, Async.await, Async.lift,
    Async.try_finally, Async.try_catch, Async.perform, Async.bind,
    Async.get, Async.modify, Async.ret, Async.throw.

(** ** Trade executor: single flight *)

Section SingleFlight.
Import JS Async TradeExecutor.

Variable cfg : Config.

Lemma executeSellOrder_clears position currentPrice si available reason s :
  orderInProgress s = false ->
  always (cleared _)
    (executeSellOrder cfg position currentPrice si available reason s).
Proof.
  intros Hs. unfold cleared. unfold_executor. simpl. rewrite Hs. simpl.
  branches; split; (reflexivity || discriminate).
Qed.

Lemma executeBuyOrder_clears symbol investment currentPrice si available s :
  orderInProgress s = false ->
  always (cleared _)
    (executeBuyOrder cfg symbol investment currentPrice si available s).
Proof.
  intros Hs. unfold cleared. unfold_executor. simpl. rewrite Hs. simpl.
  branches; split; (reflexivity || discriminate).
Qed.

(** A sell that goes as far as an awaited call is in flight from there:
    the flag is set in the state it suspends in, and a buy or sell started
    in that state completes at once, with no fill and nothing awaited. *)
Lemma executeSellOrder_in_flight position currentPrice si available reason s s1 :
  orderInProgress s = false ->
  suspended_in (executeSellOrder cfg position currentPrice si available reason s)
    = Some s1 ->
  orderInProgress s1 = true /\
  (forall position' price' si' available' reason',
     executeSellOrder cfg position' price' si' available' reason' s1 =
       Done (Normal None)
         (add_log LWarn "Ordem de venda já em progresso. Ignorando nova tentativa." s1)) /\
  (forall symbol' investment' price' si' available',
     executeBuyOrder cfg symbol' investment' price' si' available' s1 =
       Done (Normal None)
         (add_log LWarn "Ordem de compra já em progresso. Ignorando nova tentativa." s1)).
Proof.
  intros Hs Hsusp.
  assert (Hflag : orderInProgress s1 = true).
  { revert Hsusp. unfold_executor. simpl. rewrite Hs. simpl.
    branches;
      match goal with H : _ = Some s1 |- _ => inversion H; reflexivity end. }
  split; [exact Hflag|]. split; intros; unfold_executor; simpl;
    rewrite Hflag; reflexivity.
Qed.

Lemma executeBuyOrder_in_flight symbol investment currentPrice si available s s1 :
  orderInProgress s = false ->
  suspended_in (executeBuyOrder cfg symbol investment currentPrice si available s)
    = Some s1 ->
  orderInProgress s1 = true.
Proof.
  intros Hs. unfold_executor. simpl. rewrite Hs. simpl.
  branches;
    match goal with H : _ = Some s1 |- _ => inversion H; reflexivity end.
Qed.

(** Run without interference, a sell started with the flag clear ends with
    the flag clear, whatever the collaborators do. *)
Corollary executeSellOrder_run_clears position currentPrice si available reason s w :
  orderInProgress s = false ->
  orderInProgress
    (World.run (executeSellOrder cfg position currentPrice si available reason s) w).1.2
    = false.
Proof.
  intros Hs.
  apply (always_run (fun _ s' => orderInProgress s' = false)).
  eapply always_mono; [|apply executeSellOrder_clears; exact Hs].
  intros c s' [H _]. exact H.
Qed.

End SingleFlight.

(** C6. A buy or a sell called while the in-flight flag is set returns no
    fill at once: it awaits nothing, so the exchange is not contacted, and
    it only logs a warning.  A buy or a sell called while the flag is clear
    leaves it clear however it ends (fill, rejection or error), whatever the
    awaited calls answer. *)
Theorem single_flight
    (cfg : Config) (position : Position) (symbol : string)
    (investment currentPrice available : JS.number) (si : SymbolInfo)
    (reason : RiskManager.Reason) (busy idle : State) :
  orderInProgress busy = true ->
  orderInProgress idle = false ->
  TradeExecutor.executeBuyOrder cfg symbol investment currentPrice si available busy =
    Async.Done (Async.Normal None)
      (add_log LWarn "Ordem de compra já em progresso. Ignorando nova tentativa." busy) /\
  TradeExecutor.executeSellOrder cfg position currentPrice si available reason busy =
    Async.Done (Async.Normal None)
      (add_log LWarn "Ordem de venda já em progresso. Ignorando nova tentativa." busy) /\
  Async.always (fun _ s' => orderInProgress s' = false)
    (TradeExecutor.executeBuyOrder cfg symbol investment currentPrice si available idle) /\
  Async.always (fun _ s' => orderInProgress s' = false)
    (TradeExecutor.executeSellOrder cfg position currentPrice si available reason idle).
Proof.
  intros Hbusy Hidle. repeat split.
  - unfold_executor. simpl. rewrite Hbusy. reflexivity.
  - unfold_executor. simpl. rewrite Hbusy. reflexivity.
  - eapply always_mono; [|apply executeBuyOrder_clears; exact Hidle].
    intros c s [H _]. exact H.
  - eapply always_mono; [|apply executeSellOrder_clears; exact Hidle].
    intros c s [H _]. exact H.
Qed.

Lemma single_flight_witness :
  TradeExecutor.executeSellOrder cfg0 (mkPosition true 0.5%float "BTC" "USDT")
    97%float lot_size_001 0.5%float RiskManager.STOP_LOSS
    (set_orderInProgress true idle_state) =
  Async.Done (Async.Normal None)
    (add_log LWarn "Ordem de venda já em progresso. Ignorando nova tentativa."
       (set_orderInProgress true idle_state)).
Proof.
  refine (proj1 (proj2
    (single_flight cfg0 (mkPosition true 0.5%float "BTC" "USDT") "BTCUSDT"
       10%float 97%float 0.5%float lot_size_001 RiskManager.STOP_LOSS
       (set_orderInProgress true idle_state) idle_state _ _))).
  - reflexivity.
  - reflexivity.
Defined.

(** ** Trade executor: what a sell reports *)

Section SellReport.
Import JS Async TradeExecutor.

(** Whatever the exchange answers, a sell returns no fill, writes no trade
    and leaves the orchestrator's fields, the daily statistics among them,
    as they were: the reading of [stateManager.position.entryPrice] throws
    before the profit is computed, and the handler of [executeSellOrder]
    turns that into [null]. *)
Lemma executeSellOrder_never_reports_a_fill
    cfg position currentPrice si available reason s w :
  let r := World.run (executeSellOrder cfg position currentPrice si available reason s) w in
  r.1.1 = Normal None /\
  World.trade_table r.2 = World.trade_table w /\
  bot_fields r.1.2 = bot_fields s.
Proof.
  unfold bot_fields. unfold_executor. simpl.
  branches; repeat split; reflexivity.
Qed.

End SellReport.

(** C4 (the code departs from it). A sell of the 0.5 BTC held since 100 is
    submitted and filled at 97 by the exchange.  The specification has the call
    return the fill with the profit (97 - 100) * 0.5 = -1.5 after handing
    the trade to the store.  The code returns no fill, hands no trade to the
    store and leaves the daily statistics untouched, although the exchange
    has received and filled the order. *)
Theorem sell_fill_is_neither_returned_nor_recorded :
  let r := World.run
             (TradeExecutor.executeSellOrder cfg0 (position held_state) 97%float
                btc_filters 0.5%float RiskManager.STOP_LOSS held_state)
             filling_world in
  World.received r.2 = [mkOrderRequest "BTCUSDT" SIDE_SELL "MARKET" 0.5%float] /\
  r.1.1 = Async.Normal None /\
  World.trade_table r.2 = [] /\
  dailyStats r.1.2 = dailyStats held_state /\
  orderInProgress r.1.2 = false.
Proof. vm_compute. repeat split; reflexivity. Qed.

(** ** Orchestrator: one price event *)

Ltac unfold_monad :=
  unfold Async.formatted, Async.logger, Async.await, Async.lift,
    Async.try_finally, Async.try_catch, Async.perform, Async.bind,
    Async.get, Async.modify, Async.ret, Async.throw, Async.process_exit.

Ltac unfold_tick :=
  unfold BinanceTradingBot.processNewPrice_body, BinanceTradingBot.free_balance,
    StateManager.saveState;
  unfold_monad.

Section PriceEvent.
Import JS Async BinanceTradingBot.

Lemma processNewPrice_unfold cfg rm close s :
  isInitialized s = true ->
  processNewPrice cfg rm close s =
  catchT (processNewPrice_body cfg rm (tick_start close s))
    (fun error =>
       ErrorHandler.handleCriticalError cfg error (tick_context cfg)
         ErrorHandler.shouldExit_default).
Proof.
  intros Hinit. unfold processNewPrice, bind, get, modify, logger, try_catch.
  simpl. rewrite Hinit. reflexivity.
Qed.

(** With [shouldExit] set, the handler logs the error and ends the
    process. *)
Lemma handleCriticalError_exits cfg error context s w :
  let r := World.run (ErrorHandler.handleCriticalError cfg error context true s) w in
  r.1.1 = Exit 1 /\
  In (LError, String.append context (String.append ": " (message error))) (log r.1.2).
Proof.
  unfold ErrorHandler.handleCriticalError, TelegramService.sendTelegramNotification,
    logger, await, try_catch, perform, process_exit, bind, get, modify, ret, throw.
  simpl. branches; (split; [reflexivity|]); simpl.
  all: rewrite <- ?app_assoc; apply in_or_app; right; left; reflexivity.
Qed.

(** An event whose exit check fires ends with the position fields reset,
    when no entry follows in the same event: the result of the sell is not
    looked at. *)
Lemma exit_resets_position_whatever_sell_returns cfg rm close s w a b :
  isInitialized s = true ->
  (SignalProcessor.processPrice (signalProcessor s) close).1 <> Some SignalProcessor.BUY ->
  RiskManager.checkExitConditions cfg (position s) (entryPrice s) (highestPrice s) close
    (stopLossPercentage (strategy cfg)) (takeProfitPercentage (strategy cfg))
    (trailingStopPercentage (strategy cfg)) = inr (Some a) ->
  accountBalances s !! asset (position s) = Some b ->
  let r := World.run (processNewPrice cfg rm close s) w in
  r.1.1 = Normal tt /\
  holding (position r.1.2) = false /\
  amount (position r.1.2) = 0%float /\
  entryPrice r.1.2 = 0%float /\
  highestPrice r.1.2 = 0%float.
Proof.
  intros Hinit Hsig Hexit Hbal.
  rewrite processNewPrice_unfold by exact Hinit.
  unfold tick_start. unfold_tick. simpl.
  destruct (SignalProcessor.processPrice (signalProcessor s) close) as [signal sp].
  simpl in Hsig.
  destruct signal as [[|]|]; [congruence| |]; simpl; rewrite Hexit; simpl;
    rewrite Hbal; simpl; rewrite run_catchT, !run_bindT;
    match goal with
    | |- context [World.run (TradeExecutor.executeSellOrder ?c ?p ?cp ?si ?av ?re ?s0) ?w0] =>
        pose proof (executeSellOrder_never_reports_a_fill c p cp si av re s0 w0) as Hf;
        destruct (World.run (TradeExecutor.executeSellOrder c p cp si av re s0) w0)
          as [[c1 s1] w1]
    end;
    simpl in Hf; destruct Hf as [-> _]; simpl;
    destruct (World.db_available w1); simpl; repeat split; reflexivity.
Qed.

(** An event in which the exit check, made on the stored highest price,
    reports nothing while a position is held: nothing is awaited, and the
    highest price is raised at the end of the event. *)
Lemma no_exit_event cfg rm close s w :
  isInitialized s = true ->
  holding (position s) = true ->
  RiskManager.checkExitConditions cfg (position s) (entryPrice s) (highestPrice s) close
    (stopLossPercentage (strategy cfg)) (takeProfitPercentage (strategy cfg))
    (trailingStopPercentage (strategy cfg)) = inr None ->
  let r := World.run (processNewPrice cfg rm close s) w in
  r.1.1 = Normal tt /\ r.2 = w /\
  position r.1.2 = position s /\ entryPrice r.1.2 = entryPrice s /\
  highestPrice r.1.2 = if gt close (highestPrice s) then close else highestPrice s.
Proof.
  intros Hinit Hheld Hexit.
  rewrite processNewPrice_unfold by exact Hinit.
  unfold tick_start. unfold_tick. simpl.
  destruct (SignalProcessor.processPrice (signalProcessor s) close) as [signal sp].
  destruct signal as [sig|]; simpl; rewrite Hexit; simpl; rewrite ?Hheld; simpl;
    destruct (gt close (highestPrice s)); simpl; rewrite ?Hheld; simpl;
    repeat split; reflexivity.
Qed.

(** No error leaves [processNewPrice]. *)
Lemma processNewPrice_never_throws cfg rm close s w e :
  (World.run (processNewPrice cfg rm close s) w).1.1 <> Throw e.
Proof.
  destruct (isInitialized s) eqn:Hinit.
  - rewrite processNewPrice_unfold by exact Hinit. rewrite run_catchT.
    destruct (World.run (processNewPrice_body cfg rm (tick_start close s)) w)
      as [[c sb] wb].
    destruct c as [[]|e'|n]; simpl; try discriminate.
    destruct (handleCriticalError_exits cfg e' (tick_context cfg) sb wb) as [Hexit _].
    unfold ErrorHandler.shouldExit_default. rewrite Hexit. discriminate.
  - unfold processNewPrice. unfold_monad. simpl. rewrite Hinit. simpl. discriminate.
Qed.

End PriceEvent.

(** C1 (the code departs from it). The price falls to 97 on a position held
    since 100 with a 2 percent stop-loss; the exit check reports STOP_LOSS
    and the exchange rejects the sell order.  The specification leaves the position
    as it was; the code resets it (holding, amount, entry and highest price)
    and persists the reset, without looking at what the sell returned. *)
Theorem rejected_sell_resets_position :
  let r := World.run (BinanceTradingBot.processNewPrice cfg0 rm0 97%float held_state)
             rejecting_world in
  World.received r.2 = [mkOrderRequest "BTCUSDT" SIDE_SELL "MARKET" 0.5%float] /\
  World.trade_table r.2 = [] /\
  r.1.1 = Async.Normal tt /\
  position r.1.2 = mkPosition false 0%float "BTC" "USDT" /\
  entryPrice r.1.2 = 0%float /\
  highestPrice r.1.2 = 0%float /\
  (st_holding <$> World.bot_state r.2) = Some false.
Proof. vm_compute. repeat split; reflexivity. Qed.

(** ** Orchestrator: exceptions *)

(** C2 (as stated, refuted). A bot holding a position whose balances map
    has no entry for the position's asset receives the prices 97 and 98.
    The first event throws while reading the free balance for the sell; the
    handler ends the process with exit code 1, and the second event is never
    handled: the last price stays 97 and the position is as it was. *)
Lemma tick_exception_ends_process :
  let r := process_events cfg0 rm0 [97%float; 98%float]
             (set_accountBalances ∅ held_state) rejecting_world in
  r.1.1 = Some 1 /\
  lastPrice r.1.2 = 97%float /\
  position r.1.2 = position held_state /\
  In (LError,
      "Erro ao processar novo preço para BTCUSDT: Cannot read properties of undefined (reading 'free')")
     (log r.1.2).
Proof. vm_compute. repeat split; try reflexivity. right; right; left; reflexivity. Qed.

(** The same happens on a display precision that [toFixed] rejects, as
    soon as an exit condition is met. *)
Example tick_exception_by_precision :
  let cfg := mkConfig
               (mkStrategy "BTCUSDT" 10 30 10%float 0.02%float 0.02%float 0.005%float
                  101 5 None) false (fun _ => 0) in
  (process_events cfg rm0 [97%float; 98%float] held_state rejecting_world).1.1 = Some 1.
Proof. vm_compute. reflexivity. Qed.

(** C2 (amended). When the steps of a price event throw, the error is
    caught inside [processNewPrice] and does not leave it: the handler logs
    the error with the event's context and then ends the process with exit
    code 1, so that the events after it are not handled. *)
Theorem tick_exception_is_logged_and_ends_process
    (cfg : Config) (rm : RiskManager.t) (close : JS.number) (s : State) (w : World.t)
    (e : JS.Error) (sb : State) (wb : World.t) (later : list JS.number) :
  isInitialized s = true ->
  World.run (BinanceTradingBot.processNewPrice_body cfg rm (tick_start close s)) w
    = (Async.Throw e, sb, wb) ->
  let r := World.run (BinanceTradingBot.processNewPrice cfg rm close s) w in
  r.1.1 = Async.Exit 1 /\
  In (LError,
      String.append (tick_context cfg) (String.append ": " (JS.message e)))
     (log r.1.2) /\
  process_events cfg rm (close :: later) s w = (Some 1, r.1.2, r.2).
Proof.
  intros Hinit Hbody r.
  assert (Hr : r = World.run
                     (ErrorHandler.handleCriticalError cfg e (tick_context cfg) true sb) wb).
  { subst r. rewrite processNewPrice_unfold by exact Hinit.
    rewrite run_catchT, Hbody. reflexivity. }
  pose proof (handleCriticalError_exits cfg e (tick_context cfg) sb wb) as [Hexit Hlog].
  rewrite <- Hr in Hexit, Hlog.
  split; [exact Hexit|]. split; [exact Hlog|].
  cbn [process_events]. fold r.
  destruct r as [[c s'] w']. simpl in Hexit. subst c. reflexivity.
Qed.

Lemma tick_exception_is_logged_and_ends_process_witness :
  (World.run
     (BinanceTradingBot.processNewPrice cfg0 rm0 97%float
        (set_accountBalances ∅ held_state)) rejecting_world).1.1 = Async.Exit 1.
Proof.
  refine (proj1
    (tick_exception_is_logged_and_ends_process cfg0 rm0 97%float
       (set_accountBalances ∅ held_state) rejecting_world
       (JS.TypeError "Cannot read properties of undefined (reading 'free')")
       _ rejecting_world [] _ _)).
  - reflexivity.
  - vm_compute. reflexivity.
Defined.

(** ** Orchestrator: the highest price *)

(** C3 (as stated, refuted). A position entered at 100 with highest price
    105 and a trailing stop of 0 percent sees the new high 110.  Had the
    new high taken part in this event's exit check, the trailing stop would
    fire (110 <= 110 * (1 - 0) and 110 > 100).  The code checks the exit
    with the stored 105, finds nothing, sends no order and only then raises
    the highest price to 110. *)
Lemma new_high_misses_the_exit_check :
  RiskManager.checkExitConditions cfg_trailing_zero (position held_high_105)
    100%float 110%float 110%float 0.5%float 0.5%float 0%float =
    inr (Some (RiskManager.mkExit RiskManager.TRAILING_STOP 110%float)) /\
  let r := World.run
             (BinanceTradingBot.processNewPrice cfg_trailing_zero rm0 110%float held_high_105)
             filling_world in
  r.1.1 = Async.Normal tt /\
  World.received r.2 = [] /\
  holding (position r.1.2) = true /\
  highestPrice r.1.2 = 110%float.
Proof. vm_compute. repeat split; reflexivity. Qed.

(** C3 (amended). While a position is held, the exit conditions of a price
    event are evaluated on the highest price stored before the event; when
    they report no exit, nothing is sent to the exchange, the position and
    the entry price stay as they are, and at the end of the event the
    highest price is the new price if that exceeds the stored one, and the
    stored one otherwise. *)
Theorem highestPrice_is_raised_after_the_exit_check
    (cfg : Config) (rm : RiskManager.t) (close : JS.number) (s : State) (w : World.t) :
  isInitialized s = true ->
  holding (position s) = true ->
  RiskManager.checkExitConditions cfg (position s) (entryPrice s) (highestPrice s) close
    (stopLossPercentage (strategy cfg)) (takeProfitPercentage (strategy cfg))
    (trailingStopPercentage (strategy cfg)) = inr None ->
  let r := World.run (BinanceTradingBot.processNewPrice cfg rm close s) w in
  r.1.1 = Async.Normal tt /\
  World.received r.2 = World.received w /\
  position r.1.2 = position s /\
  entryPrice r.1.2 = entryPrice s /\
  highestPrice r.1.2 = if JS.gt close (highestPrice s) then close else highestPrice s.
Proof.
  intros Hinit Hheld Hexit r.
  destruct (no_exit_event cfg rm close s w Hinit Hheld Hexit)
    as (Hc & Hw & Hp & He & Hh).
  fold r in Hc, Hw, Hp, He, Hh.
  repeat split; try assumption. now rewrite Hw.
Qed.

Lemma highestPrice_is_raised_after_the_exit_check_witness :
  highestPrice
    (World.run
       (BinanceTradingBot.processNewPrice cfg_trailing_zero rm0 110%float held_high_105)
       filling_world).1.2 = 110%float.
Proof.
  refine (proj2 (proj2 (proj2 (proj2
    (highestPrice_is_raised_after_the_exit_check cfg_trailing_zero rm0 110%float
       held_high_105 filling_world _ _ _))))).
  - reflexivity.
  - reflexivity.
  - vm_compute. reflexivity.
Defined.

(** ** State manager: the day rollover of [loadState] *)

Ltac unfold_load :=
  unfold StateManager.loadState, StateManager.connectAndSyncDb, StateManager.rollover,
    StateManager.saveState;
  unfold_monad.

Section DayRollover.
Import JS Async StateManager.

Lemma loadState_rollover cfg s w row label :
  World.db_available w = true ->
  World.bot_state w = Some row ->
  Date.date_differs cfg (World.clock w) (startTime (st_dailyStats row)) = true ->
  Date.toISOString_date (startTime (st_dailyStats row)) = inr label ->
  let fresh := mkDailyStats 0 0 (World.clock w) (archived label (st_dailyStats row)) in
  let r := World.run (loadState cfg s) w in
  r.1.1 = Normal tt /\
  dailyStats r.1.2 = fresh /\
  (st_dailyStats <$> World.bot_state r.2) = Some fresh /\
  World.db_available r.2 = true.
Proof.
  intros Hdb Hrow Hdiff Hlabel. unfold archived, push.
  unfold_load. simpl. rewrite Hdb. simpl. rewrite Hdb, Hrow. simpl.
  rewrite Hdiff. simpl.
  destruct (strict_ne (profit (st_dailyStats row)) 0); simpl.
  - rewrite Hlabel. simpl. rewrite Hdb. simpl. repeat split; reflexivity.
  - rewrite Hdb. simpl. repeat split; reflexivity.
Qed.

Lemma loadState_same_day cfg s w row :
  World.db_available w = true ->
  World.bot_state w = Some row ->
  Date.date_differs cfg (World.clock w) (startTime (st_dailyStats row)) = false ->
  let r := World.run (loadState cfg s) w in
  r.1.1 = Normal tt /\
  dailyStats r.1.2 = st_dailyStats row /\
  World.bot_state r.2 = Some row.
Proof.
  intros Hdb Hrow Hsame.
  unfold_load. simpl. rewrite Hdb. simpl. rewrite Hdb, Hrow. simpl.
  rewrite Hsame. simpl. repeat split; (reflexivity || assumption).
Qed.

End DayRollover.

(** C7 (as stated, refuted). The persisted day ended with three trades and
    a profit of exactly zero.  Loading it on the next day resets the
    counters and persists the reset, but archives nothing: the historical
    list stays empty.  (A day that ended with the profit -1.5 is
    archived.) *)
Lemma zero_profit_day_is_not_archived :
  let r := World.run (StateManager.loadState cfg0 idle_state) (next_day_world 0%float) in
  Date.date_differs cfg0 1700000000000 1699900000000 = true /\
  r.1.1 = Async.Normal tt /\
  dailyStats r.1.2 = mkDailyStats 0 0%float 1700000000000 [] /\
  (st_dailyStats <$> World.bot_state r.2) = Some (mkDailyStats 0 0%float 1700000000000 []) /\
  dailyStats
    (World.run (StateManager.loadState cfg0 idle_state)
       (next_day_world (-1.5)%float)).1.2 =
    mkDailyStats 0 0%float 1700000000000 [mkDailyProfit "2023-11-13" (-1.5)%float].
Proof. vm_compute. repeat split; reflexivity. Qed.

(** C7 (amended). When the persisted day-start timestamp falls on another
    local calendar date than the current time, [loadState] appends the
    persisted day's profit, labelled with the UTC date of that day's start,
    to the historical list if the profit is not zero and appends nothing if
    it is zero; it resets the trade count to 0 and the profit to 0, sets the
    start timestamp to the current time and writes the reset statistics to
    the store before it returns.  A later load at a time of the same
    calendar date finds the statistics as written and does not roll over
    again. *)
Theorem load_rolls_the_day_over_once
    (cfg : Config) (s s2 : State) (w : World.t) (row : BotStateRow)
    (label : string) (later : Z) :
  World.db_available w = true ->
  World.bot_state w = Some row ->
  Date.date_differs cfg (World.clock w) (startTime (st_dailyStats row)) = true ->
  Date.toISOString_date (startTime (st_dailyStats row)) = inr label ->
  Date.date_differs cfg later (World.clock w) = false ->
  let fresh := mkDailyStats 0 0%float (World.clock w) (archived label (st_dailyStats row)) in
  let r := World.run (StateManager.loadState cfg s) w in
  let r2 := World.run (StateManager.loadState cfg s2) (World.at_time later r.2) in
  r.1.1 = Async.Normal tt /\
  dailyStats r.1.2 = fresh /\
  (st_dailyStats <$> World.bot_state r.2) = Some fresh /\
  r2.1.1 = Async.Normal tt /\
  dailyStats r2.1.2 = fresh /\
  World.bot_state r2.2 = World.bot_state r.2.
Proof.
  intros Hdb Hrow Hdiff Hlabel Hsame fresh r r2.
  destruct (loadState_rollover cfg s w row label Hdb Hrow Hdiff Hlabel)
    as (Hc & Hd & Hp & Hdb').
  fold fresh in Hd, Hp. fold r in Hc, Hd, Hp, Hdb'.
  repeat (split; [assumption|]).
  destruct (World.bot_state r.2) as [row'|] eqn:Hrow'; [|discriminate Hp].
  simpl in Hp. injection Hp as Hfresh.
  destruct (loadState_same_day cfg s2 (World.at_time later r.2) row')
    as (Hc2 & Hd2 & Hp2).
  - exact Hdb'.
  - exact Hrow'.
  - simpl. rewrite Hfresh. exact Hsame.
  - fold r2 in Hc2, Hd2, Hp2. rewrite Hfresh in Hd2.
    repeat split; assumption.
Qed.

Lemma load_rolls_the_day_over_once_witness :
  dailyStats
    (World.run (StateManager.loadState cfg0 idle_state)
       (next_day_world (-1.5)%float)).1.2 =
  mkDailyStats 0 0%float 1700000000000
    (archived "2023-11-13" (st_dailyStats (yesterday_row (-1.5)%float))).
Proof.
  refine (proj1 (proj2
    (load_rolls_the_day_over_once cfg0 idle_state idle_state
       (next_day_world (-1.5)%float) (yesterday_row (-1.5)%float) "2023-11-13"
       1700003000000 _ _ _ _ _))).
  - reflexivity.
  - reflexivity.
  - vm_compute. reflexivity.
  - vm_compute. reflexivity.
  - vm_compute. reflexivity.
Defined.
